(** * hingesdk: transport, resource API and scrape orchestrator

    A shallow embedding of the [hingesdk] package:

    - [hingesdk/exceptions.py]: the three error classes;
    - [hingesdk/client.py]: [HingeClient.__init__], [HingeClient._request]
      and [HingeClient.login_with_sms];
    - [hingesdk/api.py]: the methods of [HingeAPIClient];
    - [hingesdk/media.py]: [HingeMediaClient.get_image];
    - [hingesdk/tools.py]: [HingeTools.scrape_recommendations_multiple].

    Python values that come out of [json.load] / [response.json()] are
    modelled by the type [json].  Python dicts are association lists in
    insertion order, with [d[k] = v] replacing in place or appending at the
    end, as CPython does: [Dict] for the dicts whose keys are strings (JSON
    objects, headers), [KDict] for the dicts the orchestrator keys by
    whatever hashable value the remote side sent ([key]).  Exceptions are
    values of [exn]; code that can raise returns a [result].  The
    orchestrator mutates its store and writes files while it may still
    raise, so it runs in a state-and-error monad whose state survives an
    exception.  The bounds of its pauses are floats, as in the source. *)

From Stdlib Require Import String Ascii List ZArith Lia Bool Arith DecimalString
  Permutation Floats.
Import ListNotations.
Open Scope string_scope.

(* ================================================================== *)
(** * Part I: the model *)
(* ================================================================== *)

(** ** Python dictionaries *)

Module Dict.
Section Defs.
Context {V : Type}.

Definition t := list (string * V).

(** [d.get(k)] / [d[k]] *)
Fixpoint get (k : string) (d : t) : option V :=
  match d with
  | [] => None
  | (k', v) :: r => if String.eqb k' k then Some v else get k r
  end.

(** [k in d] *)
Definition mem (k : string) (d : t) : bool :=
  match get k d with Some _ => true | None => false end.

(** [d[k] = v]: an existing key keeps its position, a new one goes last. *)
Fixpoint set (k : string) (v : V) (d : t) : t :=
  match d with
  | [] => [(k, v)]
  | (k', v') :: r =>
      if String.eqb k' k then (k', v) :: r else (k', v') :: set k v r
  end.

Definition keys (d : t) : list string := map fst d.

(** [d.update(other)] *)
Definition update (d other : t) : t :=
  fold_left (fun acc kv => set (fst kv) (snd kv) acc) other d.

(** [dict(items)] and dict comprehensions: the items are stored one by
    one, a later duplicate overwrites. *)
Definition of_items (items : list (string * V)) : t := update [] items.
End Defs.
Arguments t : clear implicits.
End Dict.

(** [str(z)] for an integer. *)
Definition string_of_Z (z : Z) : string := NilZero.string_of_int (Z.to_int z).

(** ** Dictionaries keyed by decoded values *)

(** The decoded values that can be keys of a dict: [None], the booleans,
    the integers and the strings (lists and dicts are not hashable). *)
Inductive key : Type :=
| KNone
| KBool (b : bool)
| KInt (z : Z)
| KStr (s : string).

(** Python compares and hashes [True] as [1] and [False] as [0]: a dict
    holds one of them.  [canon k] is the value that [k] counts as. *)
Definition canon (k : key) : key :=
  match k with
  | KBool b => KInt (Z.b2z b)
  | _ => k
  end.

(** [a == b] on keys. *)
Definition key_eqb (a b : key) : bool :=
  match canon a, canon b with
  | KNone, KNone => true
  | KInt x, KInt y => Z.eqb x y
  | KStr s, KStr t => String.eqb s t
  | _, _ => false
  end.

(** The member name under which [json.dump] writes a key: a string as it
    is, [True], [False] and [None] as [true], [false] and [null], an
    integer in decimal. *)
Definition key_name (k : key) : string :=
  match k with
  | KNone => "null"
  | KBool true => "true"
  | KBool false => "false"
  | KInt z => string_of_Z z
  | KStr s => s
  end.

Module KDict.
Section Defs.
Context {V : Type}.

Definition t := list (key * V).

(** [d.get(k)] / [d[k]] *)
Fixpoint get (k : key) (d : t) : option V :=
  match d with
  | [] => None
  | (k', v) :: r => if key_eqb k' k then Some v else get k r
  end.

(** [k in d] *)
Definition mem (k : key) (d : t) : bool :=
  match get k d with Some _ => true | None => false end.

(** [d[k] = v]: an existing key keeps its position (and the key object
    first stored), a new one goes last. *)
Fixpoint set (k : key) (v : V) (d : t) : t :=
  match d with
  | [] => [(k, v)]
  | (k', v') :: r =>
      if key_eqb k' k then (k', v) :: r else (k', v') :: set k v r
  end.

Definition keys (d : t) : list key := map fst d.

(** [dict(items)] and dict comprehensions: the items are stored one by
    one, a later duplicate overwrites. *)
Definition of_items (items : list (key * V)) : t :=
  fold_left (fun acc kv => set (fst kv) (snd kv) acc) items [].
End Defs.
Arguments t : clear implicits.
End KDict.

(** ** JSON values as Python sees them *)

(** Numbers are integers here; no claim inspects a floating-point member. *)
#[local] Set Warnings "-register-all".
Inductive json : Type :=
| JNull
| JBool (b : bool)
| JNum (z : Z)
| JStr (s : string)
| JArr (l : list json)
| JObj (d : list (string * json)).

Definition dict := Dict.t json.

(** A dict of decoded values keyed by decoded values. *)
Definition kdict := KDict.t json.

(** Python truthiness ([if x:], [x or y]). *)
Definition truthy (j : json) : bool :=
  match j with
  | JNull => false
  | JBool b => b
  | JNum z => negb (Z.eqb z 0)
  | JStr s => negb (String.eqb s "")
  | JArr l => match l with [] => false | _ => true end
  | JObj d => match d with [] => false | _ => true end
  end.

(** [a or b] *)
Definition py_or (a b : json) : json := if truthy a then a else b.

(** [x == "literal"] for a decoded value [x]. *)
Definition is_str (j : json) (s : string) : bool :=
  match j with JStr s' => String.eqb s' s | _ => false end.

(** An optional argument ([None] when omitted) as a value. *)
Definition of_option (o : option json) : json :=
  match o with Some j => j | None => JNull end.

(** ** Exceptions *)

(** [hingesdk/exceptions.py] defines [HingeAPIError] and its two
    subclasses; each carries [message] and [details].  The other
    constructors are the built-in and [requests] exceptions the modelled
    code can meet. *)
Inductive exn : Type :=
| HingeAPIError (message : string) (details : dict)
| HingeAuthError (message : string) (details : dict)
| HingeRequestError (message : string) (details : dict)
| FileNotFoundError (message : string)
| JSONDecodeError
| KeyError (key : string)
| TypeError
| AttributeError
| ValueError
| OverflowError.

(** The class of the raised object. *)
Inductive error_kind := APIKind | AuthKind | RequestKind | OtherKind.

Definition kind_of (e : exn) : error_kind :=
  match e with
  | HingeAPIError _ _ => APIKind
  | HingeAuthError _ _ => AuthKind
  | HingeRequestError _ _ => RequestKind
  | _ => OtherKind
  end.

(** [isinstance(e, HingeAPIError)]: the base class or a subclass. *)
Definition is_HingeAPIError (e : exn) : bool :=
  match kind_of e with OtherKind => false | _ => true end.

Definition details_of (e : exn) : dict :=
  match e with
  | HingeAPIError _ d | HingeAuthError _ d | HingeRequestError _ d => d
  | _ => []
  end.

(** The same error object after its [details] dict was updated in place. *)
Definition with_details (e : exn) (d : dict) : exn :=
  match e with
  | HingeAPIError m _ => HingeAPIError m d
  | HingeAuthError m _ => HingeAuthError m d
  | HingeRequestError m _ => HingeRequestError m d
  | _ => e
  end.

(** [HingeAPIError.__init__]: [self.details = details or {}]. *)
Definition HingeAPIError_init (message : string) (details : dict) : exn :=
  HingeAPIError message details.

(** [HingeAuthError.__init__] *)
Definition HingeAuthError_init (message : string) (details : dict) : exn :=
  HingeAuthError ("Authentication Error: " ++ message) details.

(** [HingeRequestError.__init__]: [response_body] is [e.response.text], a
    string; the three [None] members are filled in by the client. *)
Definition HingeRequestError_init
    (status_code : Z) (message : string) (response_body : string) : exn :=
  HingeRequestError ("Request Error: " ++ message)
    [ ("status_code", JNum status_code);
      ("response_body", py_or (JStr response_body) (JStr "No response body"));
      ("endpoint", JNull);
      ("request_headers", JNull);
      ("request_body", JNull) ].

(** ** Results *)

Inductive result (A : Type) : Type :=
| Ok (a : A)
| Err (e : exn).
Arguments Ok {A} a.
Arguments Err {A} e.

Definition rbind {A B} (m : result A) (f : A -> result B) : result B :=
  match m with Ok a => f a | Err e => Err e end.

Declare Scope result_scope.
Delimit Scope result_scope with result.
Notation "x <- m ;; k" := (rbind m (fun x => k))
  (at level 61, m at next level, right associativity) : result_scope.
Notation "' p <- m ;; k" := (rbind m (fun x => let p := x in k))
  (at level 61, p pattern, m at next level, right associativity) : result_scope.

(** A [for] loop with an accumulator whose body may raise. *)
Fixpoint foldM {A B} (f : B -> A -> result B) (l : list A) (b : B) : result B :=
  match l with
  | [] => Ok b
  | a :: r => rbind (f b a) (foldM f r)
  end.

(** A list comprehension or a loop that appends, whose body may raise. *)
Fixpoint mapM {A B} (f : A -> result B) (l : list A) : result (list B) :=
  match l with
  | [] => Ok []
  | a :: r => rbind (f a) (fun b => rbind (mapM f r) (fun bs => Ok (b :: bs)))
  end.

(** ** Python accessors on decoded values *)

(** [j[k]] with a string key: [KeyError] on a dict without [k],
    [TypeError] on anything that is not a dict. *)
Definition py_index (j : json) (k : string) : result json :=
  match j with
  | JObj d => match Dict.get k d with Some v => Ok v | None => Err (KeyError k) end
  | _ => Err TypeError
  end.

(** [j.get(k, default)]: only dicts have [get]. *)
Definition py_get (j : json) (k : string) (default : json) : result json :=
  match j with
  | JObj d => Ok (match Dict.get k d with Some v => v | None => default end)
  | _ => Err AttributeError
  end.

(** [j.items()] *)
Definition py_items (j : json) : result (list (string * json)) :=
  match j with
  | JObj d => Ok d
  | _ => Err AttributeError
  end.

(** The characters of a string, each as a one-character string. *)
Fixpoint chars (s : string) : list json :=
  match s with
  | EmptyString => []
  | String c r => JStr (String c EmptyString) :: chars r
  end.

(** [for x in j]: a list yields its elements, a dict its keys, a string
    its characters; the other values are not iterable. *)
Definition py_iter (j : json) : result (list json) :=
  match j with
  | JArr l => Ok l
  | JObj d => Ok (map (fun kv => JStr (fst kv)) d)
  | JStr s => Ok (chars s)
  | _ => Err TypeError
  end.

(** Using a decoded value as a dict key ([d[k]], [k in d], [d.get(k)])
    hashes it: a list or a dict is unhashable and raises [TypeError]. *)
Definition py_hash (j : json) : result key :=
  match j with
  | JNull => Ok KNone
  | JBool b => Ok (KBool b)
  | JNum z => Ok (KInt z)
  | JStr s => Ok (KStr s)
  | JArr _ | JObj _ => Err TypeError
  end.

(** The decoded value that a key is. *)
Definition json_of_key (k : key) : json :=
  match k with
  | KNone => JNull
  | KBool b => JBool b
  | KInt z => JNum z
  | KStr s => JStr s
  end.

(** An item of [sep.join(items)]: anything but a string raises
    [TypeError]. *)
Definition as_str (j : json) : result string :=
  match j with
  | JStr s => Ok s
  | _ => Err TypeError
  end.

(** ** Transport layer: [hingesdk/client.py] *)

Definition headers := Dict.t string.

(** A headers dict as a value stored in an error's [details]. *)
Definition headers_json (h : headers) : json :=
  JObj (map (fun kv => (fst kv, JStr (snd kv))) h).

(** [str.lower()] on header names, which are ASCII. *)
Definition lower_ascii (c : ascii) : ascii :=
  let n := nat_of_ascii c in
  if (65 <=? n)%nat && (n <=? 90)%nat then ascii_of_nat (n + 32) else c.

Fixpoint lower (s : string) : string :=
  match s with
  | EmptyString => EmptyString
  | String c r => String (lower_ascii c) (lower r)
  end.

(** What [requests] hands back: a response object. [json_body] is what
    [response.json()] decodes, [None] when the body is not JSON. *)
Record response := {
  status_code : Z;
  reason : string;
  resp_url : string;
  text : string;
  json_body : option json
}.

(** The keyword arguments the SDK passes to [_request]; an absent keyword
    is [None]. *)
Record kwargs := {
  kw_headers : option headers;
  kw_json : option json;
  kw_data : option json;
  kw_params : option (Dict.t string)
}.

Definition no_kwargs : kwargs :=
  {| kw_headers := None; kw_json := None; kw_data := None; kw_params := None |}.

(** [session.request(method, url, **kwargs)] either returns a response or
    raises a [requests.exceptions.RequestException] that carries no
    response (connection error, timeout, ...): its class name and text. *)
Inductive outcome :=
| Returned (r : response)
| Raised (type_name : string) (str_e : string).

Definition session := string -> string -> kwargs -> outcome.

Record HingeClient := {
  client_session : session;
  auth_token : option string;
  session_id : option string;
  user_id : option string;
  default_headers : headers
}.

Definition BASE_URL := "https://prod-api.hingeaws.net".
Definition MEDIA_URL := "https://media.hingenexus.com".

(** [x or ""] for an optional string argument. *)
Definition or_empty (o : option string) : string :=
  match o with Some s => s | None => "" end.

(** [if s:] for an optional string argument. *)
Definition nonempty (o : option string) : option string :=
  match o with
  | Some s => if String.eqb s "" then None else Some s
  | None => None
  end.

Definition ios_headers (app_version os_version device_model : string)
    (install_id device_id : option string) : headers :=
  [ ("Accept", "*/*");
    ("Accept-Encoding", "gzip, deflate, br");
    ("Accept-Language", "en");
    ("Connection", "keep-alive");
    ("Content-Type", "application/json");
    ("Host", "prod-api.hingeaws.net");
    ("User-Agent", "Hinge/11668 CFNetwork/3860.400.22 Darwin/25.3.0");
    ("X-App-Identifier", "co.hinge.mobile.ios");
    ("X-App-Version", app_version);
    ("X-Build-Number", "11668");
    ("X-Device-Id", or_empty device_id);
    ("X-Device-Model", "unknown");
    ("X-Device-Model-Code", device_model);
    ("X-Device-Platform", "iOS");
    ("X-Device-Region", "US");
    ("X-Install-Id", or_empty install_id);
    ("X-OS-Version", os_version) ].

Definition android_headers (app_version os_version device_model : string)
    (install_id device_id : option string) : headers :=
  [ ("x-app-version", app_version);
    ("x-os-version", os_version);
    ("x-os-version-code", "34");
    ("x-device-model", device_model);
    ("x-device-model-code", device_model);
    ("x-device-manufacturer", "Google");
    ("x-build-number", "168200482");
    ("x-device-platform", "android");
    ("x-install-id", or_empty install_id);
    ("x-device-id", or_empty device_id);
    ("accept-language", "en-US");
    ("x-device-region", "US");
    ("host", "prod-api.hingeaws.net");
    ("connection", "Keep-Alive");
    ("accept-encoding", "gzip");
    ("user-agent", "okhttp/4.12.0") ].

(** [HingeClient.__init__] *)
Definition HingeClient_init (sess : session)
    (auth_token : option string) (app_version os_version device_model : string)
    (install_id device_id user_id session_id : option string)
    (platform : string) : HingeClient :=
  let h0 :=
    if String.eqb platform "iOS"
    then ios_headers app_version os_version device_model install_id device_id
    else android_headers app_version os_version device_model install_id device_id in
  let h1 :=
    match nonempty auth_token with
    | Some tok => Dict.set "Authorization" ("Bearer " ++ tok) h0
    | None => h0
    end in
  let h2 :=
    match nonempty session_id with
    | Some sid => Dict.set "X-Session-Id" sid h1
    | None => h1
    end in
  {| client_session := sess;
     auth_token := auth_token;
     session_id := session_id;
     user_id := user_id;
     default_headers := h2 |}.

(** [requests.Response.raise_for_status], of the [requests] library on
    which the client is built: it raises an [HTTPError] (here its text,
    [str(e)]) for a status in 400..499 or 500..599, and does nothing for
    any other status. *)
Definition raise_for_status (r : response) : option string :=
  if (400 <=? status_code r)%Z && (status_code r <? 500)%Z then
    Some (string_of_Z (status_code r) ++ " Client Error: " ++ reason r
          ++ " for url: " ++ resp_url r)
  else if (500 <=? status_code r)%Z && (status_code r <? 600)%Z then
    Some (string_of_Z (status_code r) ++ " Server Error: " ++ reason r
          ++ " for url: " ++ resp_url r)
  else None.

(** The headers [_request] sends: [kwargs.get("headers", {}).copy()],
    then [update(self.default_headers)].  A Python dict holds each key
    once; [Dict.of_items] makes the copy such a dict whatever list stands
    for the caller's. *)
Definition merged_headers (self : HingeClient) (kw : kwargs) : headers :=
  Dict.update
    (Dict.of_items (match kw_headers kw with Some h => h | None => [] end))
    (default_headers self).

(** [kwargs["headers"] = headers]: the keyword arguments passed on to
    [session.request]. *)
Definition sent_kwargs (self : HingeClient) (kw : kwargs) : kwargs :=
  {| kw_headers := Some (merged_headers self kw); kw_json := kw_json kw;
     kw_data := kw_data kw; kw_params := kw_params kw |}.

(** The [request_headers] kept in an error: every header whose lower-cased
    name is not [authorization]. *)
Definition sanitized_headers (h : headers) : headers :=
  Dict.of_items
    (filter (fun kv => negb (String.eqb (lower (fst kv)) "authorization")) h).

(** [HingeClient._request] (the [debug] printing has no effect on the
    result and is left out). *)
Definition _request (self : HingeClient) (method url : string) (kw : kwargs)
    : result response :=
  let headers := merged_headers self kw in
  let kw := sent_kwargs self kw in
  match client_session self method url kw with
  | Returned r =>
      match raise_for_status r with
      | None => Ok r
      | Some str_e =>
          let error := HingeRequestError_init (status_code r) str_e (text r) in
          let details := details_of error in
          let details := Dict.set "endpoint" (JStr url) details in
          let details :=
            Dict.set "request_headers"
              (headers_json (sanitized_headers headers)) details in
          let details :=
            Dict.set "request_body"
              (py_or (of_option (kw_json kw)) (of_option (kw_data kw))) details in
          if (status_code r =? 401)%Z
          then Err (HingeAuthError_init "Authentication failed" details)
          else Err (with_details error details)
      end
  | Raised type_name str_e =>
      Err (HingeAPIError_init ("Request failed: " ++ str_e)
             [ ("exception_type", JStr type_name);
               ("url", JStr url);
               ("method", JStr method) ])
  end.

(** ** Resource API layer: [HingeAPIClient.like_profile] *)

Definition json_of_opt_string (o : option string) : json :=
  match o with Some s => JStr s | None => JNull end.

(** The payload [like_profile] builds (api.py, lines 44-66).  [rating_id]
    is the fresh [uuid4] text and [created] the UTC timestamp text, both
    taken from the environment.  An optional argument is [None] when
    omitted; [if comment:] and the like test truthiness, so an empty
    string or an empty dict adds nothing. *)
Definition like_profile_payload (self : HingeClient)
    (rating_id created : string)
    (subject_id rating_token : string)
    (comment : option string) (photo prompt : option dict)
    (initiated_with origin : string) (has_pairing : bool) : dict :=
  let payload : dict :=
    [ ("ratingId", JStr rating_id);
      ("ratingToken", JStr rating_token);
      ("subjectId", JStr subject_id);
      ("sessionId", json_of_opt_string (session_id self));
      ("rating", JStr "note");
      ("origin", JStr origin);
      ("hasPairing", JBool has_pairing);
      ("created", JStr created);
      ("initiatedWith", JStr initiated_with) ] in
  let content : dict := [] in
  let content :=
    match comment with
    | Some c => if truthy (JStr c) then Dict.set "comment" (JStr c) content else content
    | None => content
    end in
  let content :=
    match photo with
    | Some p => if truthy (JObj p) then Dict.set "photo" (JObj p) content else content
    | None => content
    end in
  let content :=
    match prompt with
    | Some p => if truthy (JObj p) then Dict.set "prompt" (JObj p) content else content
    | None => content
    end in
  if truthy (JObj content)
  then Dict.set "content" (JObj content) payload
  else payload.

(** [response.json()] *)
Definition response_json (r : response) : result json :=
  match json_body r with Some j => Ok j | None => Err JSONDecodeError end.

(** [HingeAPIClient.like_profile] *)
Definition like_profile (self : HingeClient)
    (rating_id created : string)
    (subject_id rating_token : string)
    (comment : option string) (photo prompt : option dict)
    (initiated_with origin : string) (has_pairing : bool) : result json :=
  let url := BASE_URL ++ "/rate/v2/initiate" in
  let payload :=
    like_profile_payload self rating_id created subject_id rating_token
      comment photo prompt initiated_with origin has_pairing in
  let headers := [("content-type", "application/json; charset=UTF-8")] in
  rbind (_request self "POST" url
           {| kw_headers := Some headers; kw_json := Some (JObj payload);
              kw_data := None; kw_params := None |})
        response_json.

(** Whether an optional argument passes [if arg:]. *)
Definition supplied_text (o : option string) : bool :=
  truthy (json_of_opt_string o).

Definition supplied_dict (o : option dict) : bool :=
  truthy (match o with Some d => JObj d | None => JNull end).

(** The keys of the content block that are populated. *)
Definition populated (content : dict) : list string :=
  filter (fun k => Dict.mem k content) ["comment"; "photo"; "prompt"].

(** ** Scrape orchestrator: [HingeTools.scrape_recommendations_multiple] *)

(** A JSON file on disk: absent, present but not valid JSON, or a document. *)
Inductive file (A : Type) : Type :=
| Absent
| Malformed
| Document (content : A).
Arguments Absent {A}.
Arguments Malformed {A}.
Arguments Document {A} content.

(** The store file holds one JSON object keyed by identity: its members in
    the order of the text, a name possibly more than once.  (The
    orchestrator never writes anything else; a document of another JSON
    type is not a store file.) *)
Definition store_file := file (list (string * json)).

(** The store in memory, [existing_data]: the records by identity. *)
Definition store := kdict.

(** [json.load] of a store file: the members are stored one by one, a
    later duplicate overwrites; every key is a string. *)
Definition json_load (members : list (string * json)) : store :=
  KDict.of_items (map (fun kv => (KStr (fst kv), snd kv)) members).

(** [json.dump] of the store: one member per item, in order, under the
    name of its key.  Keys of different types can have the same name. *)
Definition json_dump (d : store) : list (string * json) :=
  map (fun kv => (key_name (fst kv), snd kv)) d.

(** The resource API as the orchestrator sees it.  Call number [i] is the
    one made in iteration [i]; the remote side is free to answer anything,
    or the call raises.  [get_public_users] is handed the collected
    subject ids as they are. *)
Record api_client := {
  get_recommendations : nat -> bool -> bool -> result json;
  get_public_users : nat -> list json -> result json
}.

(** What the orchestrator takes from the modules [random] and [time]:
    the float in [0, 1) that [random.random()] returns during iteration
    [i], and what becomes of [time.sleep(secs)] there: it returns after
    the pause, or it raises (CPython raises [ValueError] for a negative
    length and for a NaN, [OverflowError] for a length beyond its
    range). *)
Record clock := {
  random_random : nat -> float;
  time_sleep : nat -> float -> result unit
}.

(** [random.uniform(a, b)], which is [a + (b - a) * random()]. *)
Definition uniform (a b u : float) : float := (a + (b - a) * u)%float.

(** The texts handed to the logger, by call site. *)
Inductive message :=
| StartingIteration (number : nat) (iterations : Z)
| NoUserIds
| FetchingProfiles (n : nat)
| IterationResult (number new_profiles duplicate_profiles total : nat)
| Sleeping (sleep_time : float)
| Completed (iterations : Z) (total : nat)
| MappingNotFound (path : string)
| ApiErrorOccurred (e : exn)
| ErrorText (e : exn)
| UnexpectedError (e : exn).

(** What the orchestrator does to the outside, in order: it logs, it
    writes a document to the output file, it pauses ([Sleep] stands for a
    [time.sleep] that returned). *)
Inductive event :=
| Info (m : message)
| Warning (m : message)
| Error (m : message)
| Write (content : list (string * json))
| Sleep (secs : float).

Record state := {
  existing_data : store;
  output_file : store_file;
  trace : list event
}.

(** The state in which the orchestrator is entered. *)
Definition start (f : store_file) : state :=
  {| existing_data := []; output_file := f; trace := [] |}.

Definition M (A : Type) : Type := state -> state * result A.

Definition ret {A} (a : A) : M A := fun st => (st, Ok a).

Definition bind {A B} (m : M A) (f : A -> M B) : M B :=
  fun st =>
    match m st with
    | (st', Ok a) => f a st'
    | (st', Err e) => (st', Err e)
    end.

Definition raise {A} (e : exn) : M A := fun st => (st, Err e).

Definition lift {A} (r : result A) : M A := fun st => (st, r).

Declare Scope M_scope.
Delimit Scope M_scope with M.
Notation "x <- m ;; k" := (bind m (fun x => k))
  (at level 61, m at next level, right associativity) : M_scope.
Notation "' p <- m ;; k" := (bind m (fun x => let p := x in k))
  (at level 61, p pattern, m at next level, right associativity) : M_scope.
Notation "m ;; k" := (bind m (fun _ => k))
  (at level 61, right associativity) : M_scope.

Definition emit (ev : event) : M unit :=
  fun st =>
    ({| existing_data := existing_data st;
        output_file := output_file st;
        trace := trace st ++ [ev] |}, Ok tt).

Definition get_store : M store := fun st => (st, Ok (existing_data st)).

Definition set_store (d : store) : M unit :=
  fun st =>
    ({| existing_data := d;
        output_file := output_file st;
        trace := trace st |}, Ok tt).

(** [with open(output_path, "w") as f: json.dump(existing_data, f)] *)
Definition write_output : M unit :=
  fun st =>
    ({| existing_data := existing_data st;
        output_file := Document (json_dump (existing_data st));
        trace := trace st ++ [Write (json_dump (existing_data st))] |}, Ok tt).

(** A [for] loop with an accumulator in [M]. *)
Fixpoint for_each {A B} (f : B -> A -> M B) (l : list A) (b : B) : M B :=
  match l with
  | [] => ret b
  | a :: r => bind (f b a) (for_each f r)
  end.

(** Lines 292-297: load the store file if it exists. *)
Definition load_existing : M unit :=
  fun st =>
    match output_file st with
    | Absent => set_store [] st
    | Malformed => (st, Err JSONDecodeError)
    | Document members => set_store (json_load members) st
    end.

(** Lines 300-305: load the question mapping asset. *)
Definition load_question_data (mapping_path : string) (mapping : file json)
    : M json :=
  match mapping with
  | Absent =>
      (emit (Error (MappingNotFound mapping_path)) ;;
       raise (FileNotFoundError
                ("Question mapping file not found: " ++ mapping_path)))%M
  | Malformed => raise JSONDecodeError
  | Document question_data => ret question_data
  end.

(** Line 306: the id -> prompt text mapping.  Each item of the
    comprehension evaluates [prompt["id"]], then [prompt["prompt"]], and
    is then stored under its key. *)
Definition build_question_map (question_data : json) : result kdict :=
  (text <- py_get question_data "text" (JObj []) ;;
   prompts <- py_get text "prompts" (JArr []) ;;
   prompts <- py_iter prompts ;;
   items <- mapM (fun prompt =>
                    id <- py_index prompt "id" ;;
                    p <- py_index prompt "prompt" ;;
                    id <- py_hash id ;;
                    Ok (id, p)) prompts ;;
   Ok (KDict.of_items items))%result.

(** Lines 317-323: the subject ids and their rating tokens.  The id is
    appended as it is; it is hashed when the token is stored under it,
    after [subject["ratingToken"]] has been evaluated. *)
Definition collect_subject (acc : list json * kdict) (subject : json)
    : result (list json * kdict) :=
  let '(user_ids, rating_tokens) := acc in
  (user_id <- py_index subject "subjectId" ;;
   token <- py_index subject "ratingToken" ;;
   k <- py_hash user_id ;;
   Ok ((user_ids ++ [user_id])%list, KDict.set k token rating_tokens))%result.

Definition collect_feed (acc : list json * kdict) (feed : json)
    : result (list json * kdict) :=
  (subjects <- py_get feed "subjects" (JArr []) ;;
   subjects <- py_iter subjects ;;
   foldM collect_subject subjects acc)%result.

Definition collect_subjects (recommendations : json)
    : result (list json * kdict) :=
  (feeds <- py_get recommendations "feeds" (JArr []) ;;
   feeds <- py_iter feeds ;;
   foldM collect_feed feeds ([], []))%result.

(** [question_map.get(question_id, "Unknown Question")] *)
Definition resolve_question (question_map : kdict) (question_id : key) : json :=
  match KDict.get question_id question_map with
  | Some text => text
  | None => JStr "Unknown Question"
  end.

(** Lines 347-355: one answer becomes one prompt record.  The lookup in
    the question mapping hashes the question id. *)
Definition reshape_answer (question_map : kdict) (answer : json) : result json :=
  (question_id <- py_index answer "questionId" ;;
   qid <- py_hash question_id ;;
   type <- py_get answer "type" (JStr "text") ;;
   let prompt_data : dict :=
     [ ("question", resolve_question question_map qid);
       ("question_id", question_id);
       ("type", type) ] in
   if is_str type "voice" then
     transcription <- py_get answer "transcription" (JObj []) ;;
     transcript <- py_get transcription "transcript" (JStr "") ;;
     let prompt_data := Dict.set "response" transcript prompt_data in
     voice_url <- py_get answer "url" JNull ;;
     let prompt_data := Dict.set "voice_url" voice_url prompt_data in
     waveform <- py_get answer "waveform" JNull ;;
     Ok (JObj (Dict.set "waveform" waveform prompt_data))
   else
     response <- py_get answer "response" (JStr "") ;;
     Ok (JObj (Dict.set "response" response prompt_data)))%result.

(** Line 356: one photo becomes one image record. *)
Definition reshape_photo (photo : json) : result json :=
  (url <- py_index photo "url" ;;
   cdn_id <- py_get photo "cdnId" JNull ;;
   content_id <- py_get photo "contentId" JNull ;;
   Ok (JObj [("url", url); ("cdn_id", cdn_id); ("content_id", content_id)]))%result.

(** Lines 343-362: the record stored for a new profile, whose identity
    [user_id] has been hashed by the membership test. *)
Definition reshape_profile (question_map rating_tokens : kdict)
    (user_id : key) (profile : json) : result json :=
  (profile_data <- py_get profile "profile" (JObj []) ;;
   items <- py_items profile_data ;;
   let profile_info :=
     Dict.of_items
       (filter (fun kv => negb (String.eqb (fst kv) "answers"
                                || String.eqb (fst kv) "photos")) items) in
   answers <- py_get profile_data "answers" (JArr []) ;;
   answers <- py_iter answers ;;
   prompts <- mapM (reshape_answer question_map) answers ;;
   photos <- py_get profile_data "photos" (JArr []) ;;
   photos <- py_iter photos ;;
   images <- mapM reshape_photo photos ;;
   Ok (JObj
         [ ("profile_info", JObj profile_info);
           ("prompts", JArr prompts);
           ("images", JArr images);
           ("interaction_data",
            JObj [ ("subject_id", json_of_key user_id);
                   ("rating_token", of_option (KDict.get user_id rating_tokens));
                   ("source", JStr "recommendations") ]) ]))%result.

(** The identity of a returned profile: [profile["identityId"]], hashed
    by [user_id in existing_data]. *)
Definition identity_of (profile : json) : result key :=
  (user_id <- py_index profile "identityId" ;; py_hash user_id)%result.

(** Lines 337-362: the body of the loop over the returned profiles; the
    accumulator is [(new_profiles, duplicate_profiles)]. *)
Definition process_profile (question_map rating_tokens : kdict)
    (counts : nat * nat) (profile : json) : M (nat * nat) :=
  let '(new_profiles, duplicate_profiles) := counts in
  (user_id <- lift (identity_of profile) ;;
   existing <- get_store ;;
   if KDict.mem user_id existing then
     ret (new_profiles, S duplicate_profiles)
   else
     record <- lift (reshape_profile question_map rating_tokens user_id profile) ;;
     existing <- get_store ;;
     set_store (KDict.set user_id record existing) ;;
     ret (S new_profiles, duplicate_profiles))%M.

(** Lines 372-375: the pause between two iterations.  The length is
    drawn, logged, and slept. *)
Definition pause (clk : clock) (min_sleep max_sleep : float) (i : nat) : M unit :=
  let sleep_time := uniform min_sleep max_sleep (random_random clk i) in
  (emit (Info (Sleeping sleep_time)) ;;
   lift (time_sleep clk i sleep_time) ;;
   emit (Sleep sleep_time))%M.

(** Lines 310-375: one iteration of the scrape loop, [i] counted from 0. *)
Definition scrape_iteration (api : api_client) (clk : clock)
    (question_map : kdict) (iterations : Z) (min_sleep max_sleep : float)
    (active_today new_here : bool) (i : nat) : M unit :=
  (emit (Info (StartingIteration (i + 1) iterations)) ;;
   recommendations <- lift (get_recommendations api i active_today new_here) ;;
   ' (user_ids, rating_tokens) <- lift (collect_subjects recommendations) ;;
   match user_ids with
   | [] => emit (Warning NoUserIds)
   | _ :: _ =>
       emit (Info (FetchingProfiles (length user_ids))) ;;
       profiles <- lift (get_public_users api i user_ids) ;;
       profiles <- lift (py_iter profiles) ;;
       ' (new_profiles, duplicate_profiles) <-
         for_each (process_profile question_map rating_tokens) profiles (0, 0)%nat ;;
       existing <- get_store ;;
       emit (Info (IterationResult (i + 1) new_profiles duplicate_profiles
                     (length existing))) ;;
       write_output ;;
       if (Z.of_nat i <? iterations - 1)%Z
       then pause clk min_sleep max_sleep i
       else ret tt
   end)%M.

(** [for i in range(iterations)] *)
Definition scrape_loop (api : api_client) (clk : clock) (question_map : kdict)
    (iterations : Z) (min_sleep max_sleep : float)
    (active_today new_here : bool) : M unit :=
  for_each (fun _ i => scrape_iteration api clk question_map iterations
                         min_sleep max_sleep active_today new_here i)
           (seq 0 (Z.to_nat iterations)) tt.

(** Lines 291-377: the body of the [try]. *)
Definition scrape_body (api : api_client) (clk : clock)
    (mapping_path : string) (mapping : file json)
    (iterations : Z) (min_sleep max_sleep : float)
    (active_today new_here : bool) : M unit :=
  (load_existing ;;
   question_data <- load_question_data mapping_path mapping ;;
   question_map <- lift (build_question_map question_data) ;;
   scrape_loop api clk question_map iterations min_sleep max_sleep
     active_today new_here ;;
   existing <- get_store ;;
   emit (Info (Completed iterations (length existing))))%M.

(** Lines 379-387: each handler logs and re-raises. *)
Definition handler_message (e : exn) : message :=
  if is_HingeAPIError e then ApiErrorOccurred e
  else match e with
       | FileNotFoundError _ => ErrorText e
       | _ => UnexpectedError e
       end.

(** [HingeTools.scrape_recommendations_multiple]; the output file is the
    one of the state, the mapping asset is given with its path. *)
Definition scrape_recommendations_multiple (api : api_client) (clk : clock)
    (mapping_path : string) (mapping : file json)
    (iterations : Z) (min_sleep max_sleep : float)
    (active_today new_here : bool) : M unit :=
  fun st =>
    match scrape_body api clk mapping_path mapping iterations
            min_sleep max_sleep active_today new_here st with
    | (st', Ok tt) => (st', Ok tt)
    | (st', Err e) =>
        (fst (emit (Error (handler_message e)) st'), Err e)
    end.

(** ** Properties of states and of computations *)

(** A computation keeps [I] when the state it leaves (whether it returns
    or raises) satisfies [I] if the state it started in did. *)
Definition preserves {A} (I : state -> Prop) (m : M A) : Prop :=
  forall st, I st -> I (fst (m st)).

(** No two keys of the store are equal as Python compares them. *)
Definition distinct_keys (d : store) : Prop :=
  NoDup (map canon (KDict.keys d)).

Definition string_key (k : key) : bool :=
  match k with KStr _ => true | _ => false end.

(** Every key of the store is a string. *)
Definition string_keys (d : store) : Prop :=
  forallb string_key (KDict.keys d) = true.

(** No member name occurs twice: in any document written to the file,
    and in the file unless it still is the file [f] the run found. *)
Definition no_duplicates (f : store_file) (st : state) : Prop :=
  (forall d, In (Write d) (trace st) -> NoDup (Dict.keys d))
  /\ (output_file st = f
      \/ exists d, output_file st = Document d /\ NoDup (Dict.keys d)).

(** A returned profile is identified by a string, if it has an
    [identityId] at all. *)
Definition string_identity (profile : json) : bool :=
  match py_index profile "identityId" with
  | Ok (JStr _) => true
  | Ok _ => false
  | Err _ => true
  end.

(** The remote side identifies every profile it returns by a string. *)
Definition string_identities (api : api_client) : Prop :=
  forall i user_ids profiles items,
    get_public_users api i user_ids = Ok profiles ->
    py_iter profiles = Ok items ->
    forallb string_identity items = true.

(** The events that only log or pause. *)
Definition quiet (ev : event) : Prop :=
  match ev with Write _ => False | _ => True end.

(** Every record of [d0] is still bound, to the same value. *)
Definition keeps_records (d0 : store) (st : state) : Prop :=
  forall k v, KDict.get k d0 = Some v -> KDict.get k (existing_data st) = Some v.

(** [id in ids] *)
Definition member (id : string) (ids : list string) : bool :=
  existsb (String.eqb id) ids.

(** The identities a cycle returns: those of the profiles fetched for the
    recommended subjects, in order; none when no subject was recommended
    (then no profile is fetched). *)
Definition returned_identities (api : api_client) (active_today new_here : bool)
    (i : nat) : result (list key) :=
  (recommendations <- get_recommendations api i active_today new_here ;;
   collected <- collect_subjects recommendations ;;
   match fst collected with
   | [] => Ok []
   | _ :: _ =>
       profiles <- get_public_users api i (fst collected) ;;
       profiles <- py_iter profiles ;;
       mapM identity_of profiles
   end)%result.

(** The length of the pause of iteration [i]. *)
Definition sleep_time (clk : clock) (min_sleep max_sleep : float) (i : nat)
    : float :=
  uniform min_sleep max_sleep (random_random clk i).

(** The events with which a completed iteration that fetched profiles
    ends. *)
Definition closing_events (clk : clock) (iterations : Z)
    (min_sleep max_sleep : float) (i : nat)
    (new_profiles duplicate_profiles : nat) (d : store) : list event :=
  [ Info (IterationResult (i + 1) new_profiles duplicate_profiles (length d));
    Write (json_dump d) ]
  ++ (if (Z.of_nat i <? iterations - 1)%Z
      then [ Info (Sleeping (sleep_time clk min_sleep max_sleep i));
             Sleep (sleep_time clk min_sleep max_sleep i) ]
      else []).

(** The pause of iteration [i], if there is one, returns. *)
Definition pause_returns (clk : clock) (iterations : Z)
    (min_sleep max_sleep : float) (i : nat) : Prop :=
  (Z.of_nat i <? iterations - 1)%Z = true ->
  time_sleep clk i (sleep_time clk min_sleep max_sleep i) = Ok tt.

(** The subject ids an iteration collects from its recommendations. *)
Definition collected_user_ids (api : api_client) (active_today new_here : bool)
    (i : nat) : result (list json) :=
  (recommendations <- get_recommendations api i active_today new_here ;;
   collected <- collect_subjects recommendations ;;
   Ok (fst collected))%result.

(** A voice answer carries its transcription as an object, or not at all. *)
Definition transcription_ok (answer : json) : bool :=
  match py_get answer "type" (JStr "text") with
  | Ok type =>
      if is_str type "voice" then
        match py_get answer "transcription" (JObj []) with
        | Ok (JObj _) => true
        | _ => false
        end
      else true
  | Err _ => true
  end.

(** [answer["type"] == "voice"], with the default of the source. *)
Definition is_voice (answer : json) : bool :=
  match py_get answer "type" (JStr "text") with
  | Ok type => is_str type "voice"
  | Err _ => false
  end.

(** ** Sample inputs *)

Definition subject (id token : string) : json :=
  JObj [("subjectId", JStr id); ("ratingToken", JStr token)].

Definition recommendations_of (subjects : list json) : json :=
  JObj [("feeds", JArr [JObj [("subjects", JArr subjects)]])].

Definition sample_profile (id : string) : json :=
  JObj [ ("identityId", JStr id);
         ("profile",
          JObj [ ("firstName", JStr id);
                 ("answers",
                  JArr [ JObj [("questionId", JStr "q1"); ("response", JStr "Tea")];
                         JObj [("questionId", JStr "q9"); ("type", JStr "voice");
                               ("url", JStr "https://media/voice.m4a")] ]);
                 ("photos",
                  JArr [ JObj [("url", JStr "https://media/1.jpg");
                               ("cdnId", JStr "c1")] ]) ]) ].

Definition sample_question_data : json :=
  JObj [("text",
         JObj [("prompts",
                JArr [JObj [("id", JStr "q1");
                            ("prompt", JStr "My simple pleasures")]])])].

Definition sample_question_map : kdict :=
  [(KStr "q1", JStr "My simple pleasures")].

(** Two cycles: the first recommends [a] and [b], the second [b] and [c];
    every later one recommends nobody.  The profiles are fetched as the
    SDK does it: the ids are joined, which takes strings. *)
Definition sample_api : api_client :=
  {| get_recommendations := fun i _ _ =>
       match i with
       | 0 => Ok (recommendations_of [subject "a" "ta"; subject "b" "tb"])
       | 1 => Ok (recommendations_of [subject "b" "tb2"; subject "c" "tc"])
       | _ => Ok (recommendations_of [])
       end;
     get_public_users := fun _ user_ids =>
       (ids <- mapM as_str user_ids ;; Ok (JArr (map sample_profile ids)))%result |}.

(** A remote side that never recommends anybody. *)
Definition empty_api : api_client :=
  {| get_recommendations := fun _ _ _ => Ok (recommendations_of []);
     get_public_users := fun _ _ => Ok (JArr []) |}.

(** A remote side that recommends the subject ["5"] and identifies its
    profile by the number [5]. *)
Definition numbering_api : api_client :=
  {| get_recommendations := fun _ _ _ => Ok (recommendations_of [subject "5" "t5"]);
     get_public_users := fun _ _ => Ok (JArr [JObj [("identityId", JNum 5)]]) |}.

(** A store file with a record for the identity ["5"]. *)
Definition sample_store_file : store_file :=
  Document [("5", JObj [("profile_info", JObj [("firstName", JStr "Eve")])])].

(** Draws in the middle of the interval; a pause fails as CPython's does
    on a negative length or a NaN. *)
Definition sample_clock : clock :=
  {| random_random := fun _ => 0.5%float;
     time_sleep := fun _ secs =>
       if PrimFloat.is_nan secs || (secs <? 0)%float then Err ValueError
       else Ok tt |}.

Definition sample_mapping_path : string := "hingesdk/assets/prompts.json".

(** A voice answer to a question the mapping does not know, with a
    [null] transcription. *)
Definition untranscribed_voice_answer : json :=
  JObj [("questionId", JStr "q9"); ("type", JStr "voice");
        ("transcription", JNull)].

(** A text answer whose question id is a list. *)
Definition list_question_answer : json :=
  JObj [("questionId", JArr [JStr "q9"]); ("response", JStr "Tea")].

(** A session whose every response has the given status. *)
Definition session_answering (status : Z) (reason : string) : session :=
  fun _ url _ =>
    Returned {| status_code := status; reason := reason; resp_url := url;
                text := ""; json_body := None |}.

(** A session that cannot reach the server. *)
Definition session_offline : session :=
  fun _ _ _ => Raised "ConnectionError" "connection refused".

Definition sample_client (sess : session) : HingeClient :=
  HingeClient_init sess (Some "secret-token") "9.105.0" "26.3" "iPhone17,3"
    (Some "install-1") (Some "device-1") (Some "player-1") (Some "session-1") "iOS".

Definition sample_url : string := "https://prod-api.hingeaws.net/rec/v2".

(** The error raised for a 404 answer to a client that holds a token. *)
Definition sample_not_found_error : exn :=
  match _request (sample_client (session_answering 404 "Not Found"))
          "GET" sample_url no_kwargs with
  | Err e => e
  | Ok _ => TypeError
  end.

Definition sample_photo : dict :=
  [("contentId", JStr "photo-1"); ("comment", JStr "Nice view")].

(** The state in which a two-cycle run against [sample_api] ends, started
    without a store file, with the default bounds of the pause. *)
Definition sample_final : state :=
  fst (scrape_recommendations_multiple sample_api sample_clock
         sample_mapping_path (Document sample_question_data) 2 5 15
         false false (start Absent)).

(** The state in which a one-cycle run against [numbering_api] ends,
    started on [sample_store_file]. *)
Definition numbering_final : state :=
  fst (scrape_recommendations_multiple numbering_api sample_clock
         sample_mapping_path (Document sample_question_data) 1 5 15
         false false (start sample_store_file)).

(** The accounting lines of a trace: iteration number, new profiles,
    duplicates, total. *)
Fixpoint accounting (tr : list event) : list (nat * nat * nat * nat) :=
  match tr with
  | [] => []
  | Info (IterationResult number n d t) :: r => (number, n, d, t) :: accounting r
  | _ :: r => accounting r
  end.

(** The documents written to the output file, oldest first. *)
Fixpoint writes (tr : list event) : list (list (string * json)) :=
  match tr with
  | [] => []
  | Write d :: r => d :: writes r
  | _ :: r => writes r
  end.

(** ** More of the transport layer: [HingeClient.login_with_sms] *)

(** [cls(...)] with the defaults of [HingeClient.__init__] for the
    arguments a call leaves out. *)
Definition HingeClient_new (sess : session)
    (auth_token install_id device_id user_id session_id : option string)
    : HingeClient :=
  HingeClient_init sess auth_token "9.105.0" "26.3" "iPhone17,3"
    install_id device_id user_id session_id "iOS".

(** The call [cls(auth_token=..., device_id=..., install_id=...,
    user_id=..., session_id=...)] that builds the client which
    [login_with_sms] returns.  The token, the player id and the session
    id are decoded values of the verification response, handed to the
    constructor as they are. *)
Record constructor_call := {
  call_auth_token : json;
  call_device_id : string;
  call_install_id : string;
  call_user_id : json;
  call_session_id : json
}.

(** A decoded value as an argument declared [Optional[str]], when it is
    one. *)
Definition optional_text (j : json) : option (option string) :=
  match j with
  | JNull => Some None
  | JStr s => Some (Some s)
  | _ => None
  end.

(** The client that the call constructs over the session [sess], for
    arguments of the types that [HingeClient.__init__] declares. *)
Definition constructed (sess : session) (c : constructor_call)
    : option HingeClient :=
  match optional_text (call_auth_token c), optional_text (call_user_id c),
        optional_text (call_session_id c) with
  | Some auth_token, Some user_id, Some session_id =>
      Some (HingeClient_new sess auth_token (Some (call_install_id c))
              (Some (call_device_id c)) user_id session_id)
  | _, _, _ => None
  end.

Definition json_content_type : headers :=
  [("content-type", "application/json; charset=UTF-8")].

(** The keyword arguments of a call [_request(..., json=payload,
    headers=headers)]. *)
Definition json_request (payload : dict) (h : headers) : kwargs :=
  {| kw_headers := Some h; kw_json := Some (JObj payload);
     kw_data := None; kw_params := None |}.

Definition initiate_url : string := BASE_URL ++ "/auth/sms/v2/initiate".
Definition verify_url : string := BASE_URL ++ "/auth/sms/v2".

(** The temporary client of [login_with_sms]: no token, no session id. *)
Definition temp_client (sess : session) (device_id install_id : string)
    : HingeClient :=
  HingeClient_new sess None (Some install_id) (Some device_id) None None.

Definition initiate_payload (phone_number device_id : string) : dict :=
  [("phoneNumber", JStr phone_number); ("deviceId", JStr device_id)].

Definition verify_payload (phone_number device_id install_id sms_code : string)
    : dict :=
  [ ("deviceId", JStr device_id);
    ("installId", JStr install_id);
    ("phoneNumber", JStr phone_number);
    ("otp", JStr sms_code) ].

(** [HingeClient.login_with_sms].  [sms_code] is what the user types at
    the prompt and [fresh_uuid] the text of [uuid.uuid4()], both taken
    from the environment; the [print] calls are left out.  The result is
    the constructor call of the last statement. *)
Definition login_with_sms (sess : session) (sms_code fresh_uuid : string)
    (phone_number device_id install_id : string) : result constructor_call :=
  let temp_client := temp_client sess device_id install_id in
  let headers := json_content_type in
  (response <- _request temp_client "POST" initiate_url
                 (json_request (initiate_payload phone_number device_id) headers) ;;
   verify_response <- _request temp_client "POST" verify_url
                        (json_request
                           (verify_payload phone_number device_id install_id
                              sms_code) headers) ;;
   verify_data <-
     match response_json verify_response with
     | Ok verify_data => Ok verify_data
     | Err _ =>
         Err (HingeAPIError_init "Failed to parse verification response"
                [ ("status_code", JNum (status_code verify_response));
                  ("response_text", JStr (text verify_response)) ])
     end ;;
   auth_token <- py_get verify_data "token" JNull ;;
   user_id <- py_get verify_data "playerId" JNull ;;
   session_id <- py_get verify_data "sessionId" JNull ;;
   if negb (truthy auth_token) then
     Err (HingeAPIError_init "Failed to retrieve authentication token"
            [("response", verify_data)])
   else
     let session_id := if truthy session_id then session_id else JStr fresh_uuid in
     Ok {| call_auth_token := auth_token;
           call_device_id := device_id;
           call_install_id := install_id;
           call_user_id := user_id;
           call_session_id := session_id |})%result.

(** ** Media layer: [HingeMediaClient.get_image] *)

Definition DEFAULT_MEDIA_HEADERS : headers :=
  [ ("host", "media.hingenexus.com");
    ("connection", "Keep-Alive");
    ("accept-encoding", "gzip");
    ("user-agent", "okhttp/4.12.0") ].

(** The headers [get_image] hands to [_request]: the media defaults,
    updated with the caller's when these are given and not empty. *)
Definition media_request_headers (h : option headers) : headers :=
  let request_headers := Dict.of_items DEFAULT_MEDIA_HEADERS in
  match h with
  | Some (kv :: r) => Dict.update request_headers (kv :: r)
  | _ => request_headers
  end.

(** [HingeMediaClient.get_image]; the result is the body of the
    response ([response.content]). *)
Definition get_image (self : HingeClient) (image_path : string)
    (params : option (Dict.t string)) (h : option headers) : result string :=
  let url := MEDIA_URL ++ "/" ++ image_path in
  let request_headers := media_request_headers h in
  (response <- _request self "GET" url
                 {| kw_headers := Some request_headers; kw_json := None;
                    kw_data := None; kw_params := params |} ;;
   Ok (text response))%result.

(** ** More of the resource API layer *)

Module API.

(** The keyword arguments of a call [_request(method, url)]. *)
Definition plain_request : kwargs := no_kwargs.

(** The payload of [send_message] (api.py, lines 105-116); [dedup_id] is
    the fresh [uuid4] text. *)
Definition send_message_payload (dedup_id subject_id message : string)
    (match_message : bool) (origin message_type : string) (ays : bool) : dict :=
  [ ("subjectId", JStr subject_id);
    ("matchMessage", JBool match_message);
    ("origin", JStr origin);
    ("dedupId", JStr dedup_id);
    ("messageData", JObj [("message", JStr message)]);
    ("messageType", JStr message_type);
    ("ays", JBool ays) ].

(** [HingeAPIClient.send_message] *)
Definition send_message (self : HingeClient) (dedup_id : string)
    (subject_id message : string) (match_message : bool)
    (origin message_type : string) (ays : bool) : result json :=
  let url := BASE_URL ++ "/message/send" in
  let payload :=
    send_message_payload dedup_id subject_id message match_message origin
      message_type ays in
  rbind (_request self "POST" url (json_request payload json_content_type))
        response_json.

(** [HingeAPIClient.get_standouts] *)
Definition get_standouts (self : HingeClient)
    (additional_headers : option headers) : result json :=
  let url := BASE_URL ++ "/standouts/v2" in
  let h : headers :=
    match additional_headers with
    | Some (kv :: r) => Dict.update [] (kv :: r)
    | _ => []
    end in
  rbind (_request self "GET" url
           {| kw_headers := Some h; kw_json := None; kw_data := None;
              kw_params := None |})
        response_json.

Definition recommendations_payload (self : HingeClient)
    (active_today new_here : bool) : dict :=
  [ ("playerId", json_of_opt_string (user_id self));
    ("activeToday", JBool active_today);
    ("newHere", JBool new_here) ].

(** [HingeAPIClient.get_recommendations] ([additional_headers] is not
    used by the method). *)
Definition get_recommendations (self : HingeClient)
    (active_today new_here : bool) : result json :=
  let url := BASE_URL ++ "/rec/v2" in
  let payload := recommendations_payload self active_today new_here in
  rbind (_request self "POST" url
           {| kw_headers := None; kw_json := Some (JObj payload);
              kw_data := None; kw_params := None |})
        response_json.

(** [",".join(ids)]: every item has to be a string. *)
Definition join_ids (ids : list json) : result string :=
  (ids <- mapM as_str ids ;; Ok (String.concat "," ids))%result.

(** [HingeAPIClient.get_public_users] *)
Definition get_public_users (self : HingeClient) (user_ids : list json)
    : result json :=
  let url := BASE_URL ++ "/user/v2/public" in
  (ids <- join_ids user_ids ;;
   let params := [("ids", ids)] in
   rbind (_request self "GET" url
            {| kw_headers := None; kw_json := None; kw_data := None;
               kw_params := Some params |})
         response_json)%result.

(** [HingeAPIClient.get_public_content] *)
Definition get_public_content (self : HingeClient) (content_ids : list json)
    : result json :=
  let url := BASE_URL ++ "/content/v1/public" in
  (ids <- join_ids content_ids ;;
   let params := [("ids", ids)] in
   rbind (_request self "GET" url
            {| kw_headers := None; kw_json := None; kw_data := None;
               kw_params := Some params |})
         response_json)%result.

(** The parameterless GETs: [get_settings], [get_auth_settings],
    [get_notification_settings], [get_like_limit], [get_user_traits],
    [get_account_info], [get_export_status]. *)
Definition get_json (self : HingeClient) (path : string) : result json :=
  rbind (_request self "GET" (BASE_URL ++ path) plain_request) response_json.

Definition get_settings self := get_json self "/content/v1/settings".
Definition get_auth_settings self := get_json self "/auth/settings".
Definition get_notification_settings self :=
  get_json self "/notification/v1/settings".
Definition get_like_limit self := get_json self "/likelimit".
Definition get_user_traits self := get_json self "/user/v2/traits".
Definition get_account_info self := get_json self "/store/v2/account".
Definition get_export_status self := get_json self "/user/export/status".

End API.

(** The remote side over time: how the session answers during iteration
    [i] of the orchestrator. *)
Definition remote := nat -> session.

(** The client with the session that iteration [i] meets. *)
Definition at_time (self : HingeClient) (net : remote) (i : nat) : HingeClient :=
  {| client_session := net i;
     auth_token := auth_token self;
     session_id := session_id self;
     user_id := user_id self;
     default_headers := default_headers self |}.

(** The resource API of the orchestrator when it is the SDK's client
    [self] talking to [net]. *)
Definition api_over (self : HingeClient) (net : remote) : api_client :=
  {| get_recommendations := fun i active_today new_here =>
       API.get_recommendations (at_time self net i) active_today new_here;
     get_public_users := fun i user_ids =>
       API.get_public_users (at_time self net i) user_ids |}.


(** The [details] of the error that [_request] raises for the response
    [r], once the client has filled in the request's context. *)
Definition status_error_details (self : HingeClient) (url : string)
    (kw : kwargs) (r : response) : dict :=
  [ ("status_code", JNum (status_code r));
    ("response_body",
     JStr (if String.eqb (text r) "" then "No response body" else text r));
    ("endpoint", JStr url);
    ("request_headers",
     headers_json (sanitized_headers (merged_headers self kw)));
    ("request_body", py_or (of_option (kw_json kw)) (of_option (kw_data kw))) ].

(** The error of a like that is answered 404. *)
Definition sample_failed_like : exn :=
  match like_profile (sample_client (session_answering 404 "Not Found"))
          "rating-1" "2026-01-01T00:00:00Z" "subject-1" "token-1"
          None (Some sample_photo) None "standard" "compatibles" false with
  | Err e => e
  | Ok _ => TypeError
  end.

(** A server that accepts the SMS login: it answers the initiate request
    with an empty 204 and the verify request with a token and a player
    id, but no session id. *)
Definition sample_login_session : session :=
  fun _ url _ =>
    if String.eqb url verify_url then
      Returned {| status_code := 200; reason := "OK"; resp_url := url;
                  text := "{...}";
                  json_body := Some (JObj [("token", JStr "fresh-token");
                                           ("playerId", JStr "player-7")]) |}
    else
      Returned {| status_code := 204; reason := "No Content"; resp_url := url;
                  text := ""; json_body := None |}.

Definition sample_logged_in : result constructor_call :=
  login_with_sms sample_login_session "123456"
    "0b1c2d3e-0000-4000-8000-000000000000" "+12345678901" "device-1" "install-1".

Definition sample_login_client : HingeClient :=
  match sample_logged_in with
  | Ok call =>
      match constructed sample_login_session call with
      | Some client => client
      | None => sample_client session_offline
      end
  | Err _ => sample_client session_offline
  end.

(** A server that accepts the SMS login and answers the verification
    with a number as the token. *)
Definition numeric_token_session : session :=
  fun _ url _ =>
    Returned {| status_code := 200; reason := "OK"; resp_url := url;
                text := "{...}";
                json_body := Some (JObj [("token", JNum 12345)]) |}.

(** A server that accepts the SMS code but answers the verification with
    a JSON object that has no token. *)
Definition tokenless_login_session : session :=
  fun _ url _ =>
    Returned {| status_code := 200; reason := "OK"; resp_url := url;
                text := "{...}";
                json_body := Some (JObj [("playerId", JStr "player-7")]) |}.

(** A remote side that rejects the token in every iteration. *)
Definition rejecting_remote : remote :=
  fun _ => session_answering 401 "Unauthorized".

(* ================================================================== *)
(** * Part II: facts about the model *)
(* ================================================================== *)

(** ** Sample runs *)

Example lower_authorization : lower "Authorization" = "authorization".
Proof. reflexivity. Qed.

Example sample_client_holds_bearer :
  Dict.get "Authorization" (default_headers (sample_client session_offline))
  = Some "Bearer secret-token".
Proof. reflexivity. Qed.

Example offline_request_raises_api_error :
  _request (sample_client session_offline) "GET" sample_url no_kwargs
  = Err (HingeAPIError "Request failed: connection refused"
           [ ("exception_type", JStr "ConnectionError");
             ("url", JStr sample_url);
             ("method", JStr "GET") ]).
Proof. reflexivity. Qed.

Example not_found_raises_request_error :
  kind_of sample_not_found_error = RequestKind
  /\ Dict.get "status_code" (details_of sample_not_found_error)
     = Some (JNum 404)
  /\ Dict.get "response_body" (details_of sample_not_found_error)
     = Some (JStr "No response body").
Proof. repeat split. Qed.

Example sample_collect_subjects :
  collect_subjects (recommendations_of [subject "a" "ta"; subject "b" "tb"])
  = Ok ([JStr "a"; JStr "b"], [(KStr "a", JStr "ta"); (KStr "b", JStr "tb")]).
Proof. reflexivity. Qed.

Example sample_question_map_is_built :
  build_question_map sample_question_data = Ok sample_question_map.
Proof. reflexivity. Qed.

Example sample_run_completes :
  snd (scrape_recommendations_multiple sample_api sample_clock
         sample_mapping_path (Document sample_question_data) 2 5 15
         false false (start Absent))
  = Ok tt.
Proof. reflexivity. Qed.

Example sample_run_keys :
  KDict.keys (existing_data sample_final) = [KStr "a"; KStr "b"; KStr "c"].
Proof. reflexivity. Qed.

Example sample_run_accounting :
  accounting (trace sample_final) = [(1, 2, 0, 2); (2, 1, 1, 3)]%nat.
Proof. reflexivity. Qed.

Example sample_run_writes :
  map Dict.keys (writes (trace sample_final)) = [["a"; "b"]; ["a"; "b"; "c"]]
  /\ output_file sample_final = Document (json_dump (existing_data sample_final)).
Proof. split; reflexivity. Qed.

(** The one pause of the run is drawn in the middle of the bounds. *)
Example sample_run_sleeps_once :
  filter (fun ev => match ev with Sleep _ => true | _ => false end)
    (trace sample_final) = [Sleep 10].
Proof. reflexivity. Qed.

(** With negative bounds the pause after the first cycle raises, after
    the store was written. *)
Example negative_bounds_raise_after_the_write :
  let run :=
    scrape_recommendations_multiple sample_api sample_clock
      sample_mapping_path (Document sample_question_data) 2 (-2) (-1)
      false false (start Absent) in
  snd run = Err ValueError
  /\ map Dict.keys (writes (trace (fst run))) = [["a"; "b"]]
  /\ accounting (trace (fst run)) = [(1, 2, 0, 2)]%nat.
Proof. repeat split. Qed.

(** A subject id that is not a string is collected; the profiles cannot
    be fetched for it, which shows after the log of the fetch. *)
Example numeric_subject_fails_in_the_fetch :
  let api :=
    {| get_recommendations := fun _ _ _ =>
         Ok (recommendations_of
               [JObj [("subjectId", JNum 5); ("ratingToken", JStr "t5")]]);
       get_public_users := get_public_users sample_api |} in
  scrape_iteration api sample_clock sample_question_map 1 5 15 false false 0
    (start Absent)
  = ({| existing_data := []; output_file := Absent;
        trace := [Info (StartingIteration 1 1); Info (FetchingProfiles 1)] |},
     Err TypeError).
Proof. reflexivity. Qed.

(** A store file that lists an identity twice is read as Python reads it:
    one key, the later value. *)
Example load_merges_repeated_members :
  existing_data
    (fst (load_existing (start (Document [("a", JNum 1); ("b", JNum 2);
                                          ("a", JNum 3)]))))
  = [(KStr "a", JNum 3); (KStr "b", JNum 2)].
Proof. reflexivity. Qed.

(** [True] and [1] are one key; the key first stored is kept, and it is
    written under its own name. *)
Example true_is_one :
  KDict.set (KInt 1) (JStr "second") [(KBool true, JStr "first")]
  = [(KBool true, JStr "second")]
  /\ json_dump [(KBool true, JStr "second"); (KInt 5, JNull); (KNone, JNull)]
     = [("true", JStr "second"); ("5", JNull); ("null", JNull)].
Proof. split; reflexivity. Qed.

(** ** Dictionaries *)

Module DictFacts.
Section Facts.
Context {V : Type}.
Implicit Types (d : Dict.t V) (k : string) (v : V).


Lemma get_set_other k k' v d :
  k <> k' -> Dict.get k' (Dict.set k v d) = Dict.get k' d.
Proof.
  intros Hne. induction d as [|[k0 v0] r IH]; simpl.
  - destruct (String.eqb k k') eqn:E; auto.
    apply String.eqb_eq in E. contradiction.
  - destruct (String.eqb k0 k) eqn:E; simpl.
    + apply String.eqb_eq in E. subst k0.
      destruct (String.eqb k k') eqn:E'; auto.
      apply String.eqb_eq in E'. contradiction.
    + now rewrite IH.
Qed.

Lemma mem_keys k d : Dict.mem k d = true <-> In k (Dict.keys d).
Proof.
  unfold Dict.mem. induction d as [|[k' v'] r IH]; simpl.
  - split; [discriminate | tauto].
  - destruct (String.eqb k' k) eqn:E.
    + apply String.eqb_eq in E. tauto.
    + apply String.eqb_neq in E. rewrite IH. tauto.
Qed.

Lemma not_mem_keys k d : Dict.mem k d = false <-> ~ In k (Dict.keys d).
Proof.
  rewrite <- mem_keys. destruct (Dict.mem k d); split; congruence.
Qed.

Lemma get_none_mem k d : Dict.get k d = None <-> Dict.mem k d = false.
Proof. unfold Dict.mem. destruct (Dict.get k d); split; congruence. Qed.

(** Assigning to a key that is present leaves the keys as they are. *)
Lemma keys_set_present k v d :
  Dict.mem k d = true -> Dict.keys (Dict.set k v d) = Dict.keys d.
Proof.
  unfold Dict.mem. induction d as [|[k' v'] r IH]; simpl.
  - discriminate.
  - destruct (String.eqb k' k) eqn:E; simpl; auto.
    intros H. now rewrite IH.
Qed.

(** Assigning to a fresh key appends the item. *)
Lemma set_fresh k v d :
  Dict.mem k d = false -> Dict.set k v d = (d ++ [(k, v)])%list.
Proof.
  unfold Dict.mem. induction d as [|[k' v'] r IH]; simpl; auto.
  destruct (String.eqb k' k) eqn:E; [discriminate|].
  intros H. now rewrite IH.
Qed.

Lemma keys_app d d' :
  Dict.keys (d ++ d')%list = (Dict.keys d ++ Dict.keys d')%list.
Proof. apply map_app. Qed.

Lemma NoDup_keys_set k v d :
  NoDup (Dict.keys d) -> NoDup (Dict.keys (Dict.set k v d)).
Proof.
  intros H. destruct (Dict.mem k d) eqn:E.
  - now rewrite keys_set_present.
  - rewrite set_fresh, keys_app by assumption. simpl.
    apply not_mem_keys in E.
    apply (Permutation_NoDup (l := k :: Dict.keys d)).
    + apply Permutation_cons_append.
    + now constructor.
Qed.

Lemma NoDup_keys_update d other :
  NoDup (Dict.keys d) -> NoDup (Dict.keys (Dict.update d other)).
Proof.
  unfold Dict.update. revert d.
  induction other as [|[k v] r IH]; simpl; intros d H; auto.
  apply IH. now apply NoDup_keys_set.
Qed.

Lemma NoDup_keys_of_items (items : list (string * V)) :
  NoDup (Dict.keys (Dict.of_items items)).
Proof. apply NoDup_keys_update. constructor. Qed.

(** On items with distinct keys, building the dict changes nothing. *)
Lemma update_distinct d other :
  NoDup (Dict.keys (d ++ other)%list) -> Dict.update d other = (d ++ other)%list.
Proof.
  unfold Dict.update. revert d.
  induction other as [|[k v] r IH]; simpl; intros d H.
  - now rewrite app_nil_r.
  - assert (Hk : Dict.mem k d = false).
    { apply not_mem_keys. rewrite keys_app in H. simpl in H.
      apply NoDup_remove_2 in H. intros Hin. apply H.
      apply in_or_app. now left. }
    rewrite set_fresh by assumption.
    rewrite IH; rewrite <- app_assoc; simpl; auto.
Qed.

Lemma of_items_distinct (items : list (string * V)) :
  NoDup (Dict.keys items) -> Dict.of_items items = items.
Proof. intros H. unfold Dict.of_items. now rewrite update_distinct. Qed.

Lemma NoDup_keys_filter (f : string * V -> bool) d :
  NoDup (Dict.keys d) -> NoDup (Dict.keys (filter f d)).
Proof.
  induction d as [|[k v] r IH]; simpl; intros H; auto.
  inversion H as [|? ? Hn Hr]; subst.
  destruct (f (k, v)); simpl; auto.
  constructor; auto.
  intros Hin. apply Hn. unfold Dict.keys in *.
  apply in_map_iff in Hin. destruct Hin as [x [Hx Hin]].
  apply filter_In in Hin. apply in_map_iff. exists x. tauto.
Qed.

(** Filtering on the key keeps the lookups of the kept keys. *)
Lemma get_filter_key (p : string -> bool) k d :
  Dict.get k (filter (fun kv => p (fst kv)) d)
  = if p k then Dict.get k d else None.
Proof.
  induction d as [|[k' v'] r IH]; simpl.
  - now destruct (p k).
  - destruct (String.eqb k' k) eqn:E.
    + apply String.eqb_eq in E. subst k'.
      destruct (p k) eqn:Ep; simpl.
      * now rewrite String.eqb_refl.
      * exact IH.
    + destruct (p k'); simpl; rewrite ?E; apply IH.
Qed.

End Facts.
End DictFacts.

(** ** Dictionaries keyed by decoded values *)

Lemma key_eqb_eq a b : key_eqb a b = true <-> canon a = canon b.
Proof.
  unfold key_eqb.
  destruct a as [|x|x|x], b as [|y|y|y]; cbn; split; intros H;
    try discriminate; try reflexivity;
    try (apply Z.eqb_eq in H; congruence);
    try (apply String.eqb_eq in H; congruence);
    try (apply Z.eqb_eq; congruence);
    try (apply String.eqb_eq; congruence).
Qed.

Lemma key_eqb_refl a : key_eqb a a = true.
Proof. now apply key_eqb_eq. Qed.

Lemma key_eqb_neq a b : key_eqb a b = false <-> canon a <> canon b.
Proof.
  rewrite <- key_eqb_eq. destruct (key_eqb a b); split; congruence.
Qed.

(** Whether two keys are equal depends on what they count as only. *)
Lemma key_eqb_canon a b b' : canon b = canon b' -> key_eqb a b = key_eqb a b'.
Proof.
  intros H. destruct (key_eqb a b') eqn:E.
  - apply key_eqb_eq. apply key_eqb_eq in E. congruence.
  - apply key_eqb_neq. apply key_eqb_neq in E. congruence.
Qed.

Lemma canon_string_key k : string_key k = true -> canon k = KStr (key_name k).
Proof. destruct k; try discriminate. reflexivity. Qed.

Module KDictFacts.
Section Facts.
Context {V : Type}.
Implicit Types (d : KDict.t V) (k : key) (v : V).

Lemma k_get_set_same k v d : KDict.get k (KDict.set k v d) = Some v.
Proof.
  induction d as [|[k' v'] r IH]; simpl.
  - now rewrite key_eqb_refl.
  - destruct (key_eqb k' k) eqn:E; simpl; rewrite E; auto.
Qed.

Lemma k_get_set_other k k' v d :
  key_eqb k k' = false -> KDict.get k' (KDict.set k v d) = KDict.get k' d.
Proof.
  intros Hne. apply key_eqb_neq in Hne.
  induction d as [|[k0 v0] r IH]; simpl.
  - destruct (key_eqb k k') eqn:E; auto.
    apply key_eqb_eq in E. contradiction.
  - destruct (key_eqb k0 k) eqn:E; simpl.
    + apply key_eqb_eq in E.
      destruct (key_eqb k0 k') eqn:E'; auto.
      apply key_eqb_eq in E'. congruence.
    + now rewrite IH.
Qed.

Lemma k_mem_keys k d :
  KDict.mem k d = true <-> In (canon k) (map canon (KDict.keys d)).
Proof.
  unfold KDict.mem. induction d as [|[k' v'] r IH]; simpl.
  - split; [discriminate | tauto].
  - destruct (key_eqb k' k) eqn:E.
    + apply key_eqb_eq in E. tauto.
    + apply key_eqb_neq in E. rewrite IH. tauto.
Qed.

Lemma k_not_mem_keys k d :
  KDict.mem k d = false <-> ~ In (canon k) (map canon (KDict.keys d)).
Proof.
  rewrite <- k_mem_keys. destruct (KDict.mem k d); split; congruence.
Qed.

Lemma k_get_none_mem k d : KDict.get k d = None <-> KDict.mem k d = false.
Proof. unfold KDict.mem. destruct (KDict.get k d); split; congruence. Qed.

(** Assigning to a key that is present leaves the keys as they are. *)
Lemma k_keys_set_present k v d :
  KDict.mem k d = true -> KDict.keys (KDict.set k v d) = KDict.keys d.
Proof.
  unfold KDict.mem. induction d as [|[k' v'] r IH]; simpl.
  - discriminate.
  - destruct (key_eqb k' k) eqn:E; simpl; auto.
    intros H. now rewrite IH.
Qed.

(** Assigning to a fresh key appends the item. *)
Lemma k_set_fresh k v d :
  KDict.mem k d = false -> KDict.set k v d = (d ++ [(k, v)])%list.
Proof.
  unfold KDict.mem. induction d as [|[k' v'] r IH]; simpl; auto.
  destruct (key_eqb k' k) eqn:E; [discriminate|].
  intros H. now rewrite IH.
Qed.

Lemma k_keys_app d d' :
  KDict.keys (d ++ d')%list = (KDict.keys d ++ KDict.keys d')%list.
Proof. apply map_app. Qed.

Lemma keys_set k v d :
  KDict.keys (KDict.set k v d)
  = if KDict.mem k d then KDict.keys d else (KDict.keys d ++ [k])%list.
Proof.
  destruct (KDict.mem k d) eqn:E.
  - now apply k_keys_set_present.
  - now rewrite k_set_fresh, k_keys_app.
Qed.

Lemma k_NoDup_keys_set k v d :
  NoDup (map canon (KDict.keys d)) ->
  NoDup (map canon (KDict.keys (KDict.set k v d))).
Proof.
  intros H. rewrite keys_set. destruct (KDict.mem k d) eqn:E; [exact H|].
  rewrite map_app. simpl. apply k_not_mem_keys in E.
  apply (Permutation_NoDup (l := canon k :: map canon (KDict.keys d))).
  - apply Permutation_cons_append.
  - now constructor.
Qed.

Lemma NoDup_keys_fold (items : list (key * V)) d :
  NoDup (map canon (KDict.keys d)) ->
  NoDup (map canon
           (KDict.keys
              (fold_left (fun acc kv => KDict.set (fst kv) (snd kv) acc) items d))).
Proof.
  revert d. induction items as [|[k v] r IH]; simpl; intros d H; auto.
  apply IH. now apply k_NoDup_keys_set.
Qed.

Lemma k_NoDup_keys_of_items (items : list (key * V)) :
  NoDup (map canon (KDict.keys (KDict.of_items items))).
Proof. apply NoDup_keys_fold. constructor. Qed.

Lemma mem_set_other k k' v d :
  key_eqb k k' = false -> KDict.mem k' (KDict.set k v d) = KDict.mem k' d.
Proof. intros H. unfold KDict.mem. now rewrite k_get_set_other. Qed.

(** A dict whose keys are strings keeps such keys when a string is
    assigned to. *)
Lemma string_keys_set k v d :
  string_key k = true ->
  forallb string_key (KDict.keys d) = true ->
  forallb string_key (KDict.keys (KDict.set k v d)) = true.
Proof.
  intros Hk H. rewrite keys_set. destruct (KDict.mem k d); [exact H|].
  rewrite forallb_app, H. simpl. now rewrite Hk.
Qed.

Lemma string_keys_fold (items : list (key * V)) d :
  forallb string_key (map fst items) = true ->
  forallb string_key (KDict.keys d) = true ->
  forallb string_key
    (KDict.keys
       (fold_left (fun acc kv => KDict.set (fst kv) (snd kv) acc) items d)) = true.
Proof.
  revert d. induction items as [|[k v] r IH]; simpl; intros d Hi H; auto.
  apply andb_prop in Hi. destruct Hi as [Hk Hr].
  apply IH; [exact Hr|]. now apply string_keys_set.
Qed.

End Facts.
End KDictFacts.

(** What [json.load] builds has string keys, each once. *)
Lemma distinct_keys_json_load members : distinct_keys (json_load members).
Proof. apply KDictFacts.k_NoDup_keys_of_items. Qed.

Lemma string_keys_json_load members : string_keys (json_load members).
Proof.
  unfold string_keys, json_load, KDict.of_items.
  apply KDictFacts.string_keys_fold; [|reflexivity].
  rewrite map_map. induction members as [|m r IH]; simpl; auto.
Qed.

(** The member names of a dumped store are the names of its keys. *)
Lemma keys_json_dump (d : store) :
  Dict.keys (json_dump d) = map key_name (KDict.keys d).
Proof. unfold Dict.keys, KDict.keys, json_dump. now rewrite !map_map. Qed.

(** A store whose keys are distinct strings is written without a
    repeated member name. *)
Lemma NoDup_json_dump (d : store) :
  string_keys d -> distinct_keys d -> NoDup (Dict.keys (json_dump d)).
Proof.
  unfold string_keys, distinct_keys. rewrite keys_json_dump.
  intros Hs Hd.
  assert (E : map canon (KDict.keys d) = map KStr (map key_name (KDict.keys d))).
  { rewrite map_map. apply map_ext_in. intros k Hk.
    apply canon_string_key. rewrite forallb_forall in Hs. now apply Hs. }
  rewrite E in Hd. now apply NoDup_map_inv in Hd.
Qed.

(** ** The state-and-error monad *)

Section Monad.
Variable I : state -> Prop.

Lemma preserves_ret {A} (a : A) : preserves I (ret a).
Proof. intros st H. exact H. Qed.

Lemma preserves_lift {A} (r : result A) : preserves I (lift r).
Proof. intros st H. exact H. Qed.

Lemma preserves_raise {A} (e : exn) : preserves I (@raise A e).
Proof. intros st H. exact H. Qed.

Lemma preserves_get_store : preserves I get_store.
Proof. intros st H. exact H. Qed.

Lemma preserves_bind {A B} (m : M A) (f : A -> M B) :
  preserves I m -> (forall a, preserves I (f a)) -> preserves I (bind m f).
Proof.
  intros Hm Hf st H. unfold bind.
  specialize (Hm st H). destruct (m st) as [st' [a|e]]; simpl in *.
  - now apply Hf.
  - exact Hm.
Qed.

(** After a pure step, the continuation runs on the value the step
    returned. *)
Lemma preserves_bind_lift {A B} (r : result A) (f : A -> M B) :
  (forall a, r = Ok a -> preserves I (f a)) -> preserves I (bind (lift r) f).
Proof.
  intros Hf st H. unfold bind, lift. destruct r as [a|e]; simpl.
  - now apply Hf.
  - exact H.
Qed.

Lemma preserves_for_each {A B} (ok : A -> bool) (f : B -> A -> M B) (l : list A) :
  (forall b a, ok a = true -> preserves I (f b a)) ->
  forallb ok l = true ->
  forall b, preserves I (for_each f l b).
Proof.
  intros Hf. induction l as [|a r IH]; intros Hl b; simpl.
  - apply preserves_ret.
  - simpl in Hl. apply andb_prop in Hl. destruct Hl as [Ha Hr].
    apply preserves_bind; auto.
Qed.

End Monad.

(** One step of a [bind] chain: the first computation by [tac], then the
    continuation. *)
Ltac bind_step tac := apply preserves_bind; [tac | intro].

(** A property kept by logging, by pausing, by the write of the store, by
    the processing of one profile the remote side can return (those that
    pass [fetched]) and by the load of the store file is kept by a whole
    iteration, by the loop, and by the run. *)
Section Preserves.
Variable I : state -> Prop.
Variable api : api_client.
Variable fetched : json -> bool.
Hypothesis api_fetched :
  forall i user_ids profiles items,
    get_public_users api i user_ids = Ok profiles ->
    py_iter profiles = Ok items ->
    forallb fetched items = true.
Hypothesis I_emit : forall ev, quiet ev -> preserves I (emit ev).
Hypothesis I_write_output : preserves I write_output.
Hypothesis I_process_profile :
  forall question_map rating_tokens counts profile,
    fetched profile = true ->
    preserves I (process_profile question_map rating_tokens counts profile).
Hypothesis I_load_existing : preserves I load_existing.

Lemma preserves_pause clk min_sleep max_sleep i :
  preserves I (pause clk min_sleep max_sleep i).
Proof.
  unfold pause.
  bind_step ltac:(now apply I_emit).
  bind_step ltac:(apply preserves_lift).
  now apply I_emit.
Qed.

Lemma preserves_scrape_iteration
    clk question_map iterations min_sleep max_sleep today nh i :
  preserves I
    (scrape_iteration api clk question_map iterations min_sleep max_sleep
       today nh i).
Proof.
  unfold scrape_iteration.
  bind_step ltac:(now apply I_emit).
  bind_step ltac:(apply preserves_lift).
  bind_step ltac:(apply preserves_lift).
  match goal with a : (list json * kdict)%type |- _ => destruct a as [user_ids ?] end.
  destruct user_ids as [|u us]; [now apply I_emit|].
  bind_step ltac:(now apply I_emit).
  apply preserves_bind_lift. intros profiles Hprofiles.
  apply preserves_bind_lift. intros items Hitems.
  bind_step ltac:(apply (preserves_for_each I fetched);
                  [ intros; now apply I_process_profile
                  | exact (api_fetched _ _ _ _ Hprofiles Hitems) ]).
  match goal with a : (nat * nat)%type |- _ => destruct a end.
  bind_step ltac:(apply preserves_get_store).
  bind_step ltac:(now apply I_emit).
  bind_step ltac:(apply I_write_output).
  destruct (Z.of_nat i <? iterations - 1)%Z; [|apply preserves_ret].
  apply preserves_pause.
Qed.

Lemma preserves_scrape_body
    clk mapping_path mapping iterations min_sleep max_sleep today nh :
  preserves I
    (scrape_body api clk mapping_path mapping iterations min_sleep max_sleep
       today nh).
Proof.
  unfold scrape_body.
  bind_step ltac:(apply I_load_existing).
  bind_step ltac:(unfold load_question_data; destruct mapping;
                  [ bind_step ltac:(now apply I_emit); apply preserves_raise
                  | apply preserves_raise
                  | apply preserves_ret ]).
  bind_step ltac:(apply preserves_lift).
  bind_step ltac:(unfold scrape_loop;
                  apply (preserves_for_each I (fun _ => true));
                  [ intros; apply preserves_scrape_iteration
                  | apply forallb_forall; reflexivity ]).
  bind_step ltac:(apply preserves_get_store).
  now apply I_emit.
Qed.

Lemma preserves_scrape_recommendations_multiple
    clk mapping_path mapping iterations min_sleep max_sleep today nh :
  preserves I
    (scrape_recommendations_multiple api clk mapping_path mapping iterations
       min_sleep max_sleep today nh).
Proof.
  intros st H. unfold scrape_recommendations_multiple.
  pose proof (preserves_scrape_body clk mapping_path mapping iterations
                min_sleep max_sleep today nh st H) as Hb.
  destruct (scrape_body api clk mapping_path mapping iterations
              min_sleep max_sleep today nh st)
    as [st' [[]|e]]; simpl in Hb; simpl.
  - exact Hb.
  - now apply (I_emit (Error (handler_message e))).
Qed.
End Preserves.

(** Nothing is known of the profiles of an arbitrary remote side. *)
Lemma any_fetched (api : api_client) :
  forall i user_ids profiles items,
    get_public_users api i user_ids = Ok profiles ->
    py_iter profiles = Ok items ->
    forallb (fun _ => true) items = true.
Proof. intros. apply forallb_forall. reflexivity. Qed.

(** ** No identity twice *)

(** In memory: whatever the remote side sends, the keys of the store stay
    distinct. *)
Definition distinct_store (st : state) : Prop := distinct_keys (existing_data st).

Lemma distinct_store_process_profile question_map rating_tokens counts profile :
  preserves distinct_store
    (process_profile question_map rating_tokens counts profile).
Proof.
  destruct counts as [n dup]. unfold process_profile.
  apply preserves_bind; [apply preserves_lift|]. intros user_id.
  intros st H. unfold bind, get_store.
  destruct (KDict.mem user_id (existing_data st)); [exact H|].
  unfold lift.
  destruct (reshape_profile question_map rating_tokens user_id profile)
    as [record|e]; [|exact H].
  simpl. now apply KDictFacts.k_NoDup_keys_set.
Qed.

Lemma distinct_store_load_existing : preserves distinct_store load_existing.
Proof.
  intros st H. unfold load_existing.
  destruct (output_file st) as [| |members]; auto.
  - constructor.
  - apply distinct_keys_json_load.
Qed.

Lemma distinct_store_run
    api clk mapping_path mapping iterations min_sleep max_sleep today nh f :
  distinct_store
    (fst (scrape_recommendations_multiple api clk mapping_path mapping
            iterations min_sleep max_sleep today nh (start f))).
Proof.
  apply (preserves_scrape_recommendations_multiple distinct_store api
           (fun _ => true) (any_fetched api)).
  - intros ev _ st H. exact H.
  - intros st H. exact H.
  - intros. apply distinct_store_process_profile.
  - apply distinct_store_load_existing.
  - constructor.
Qed.

(** On disk: while every identity is a string, the keys of the store are
    distinct strings and no document is written with a repeated name. *)
Definition string_store (f : store_file) (st : state) : Prop :=
  string_keys (existing_data st)
  /\ distinct_keys (existing_data st)
  /\ no_duplicates f st.

Lemma string_store_emit f ev : quiet ev -> preserves (string_store f) (emit ev).
Proof.
  intros Hq st (Hs & Hd & Hw & Hf). repeat split; simpl; auto.
  intros d Hin. apply in_app_or in Hin. destruct Hin as [Hin|[Heq|[]]]; auto.
  subst ev. destruct Hq.
Qed.

Lemma string_store_write_output f : preserves (string_store f) write_output.
Proof.
  intros st (Hs & Hd & Hw & Hf). repeat split; simpl; auto.
  - intros d Hin. apply in_app_or in Hin. destruct Hin as [Hin|[Heq|[]]]; auto.
    inversion Heq; subst. now apply NoDup_json_dump.
  - right. eexists. split; [reflexivity|]. now apply NoDup_json_dump.
Qed.

Lemma string_store_load_existing f : preserves (string_store f) load_existing.
Proof.
  intros st H. unfold load_existing.
  destruct (output_file st) as [| |members] eqn:E; [|exact H|];
    destruct H as (Hs & Hd & Hw & Hf); repeat split; simpl; auto.
  - constructor.
  - apply string_keys_json_load.
  - apply distinct_keys_json_load.
Qed.

Lemma identity_of_string profile k :
  string_identity profile = true -> identity_of profile = Ok k ->
  string_key k = true.
Proof.
  unfold string_identity, identity_of.
  destruct (py_index profile "identityId") as [[| | |s| |]|e];
    try discriminate; cbn; intros _ H; inversion H; reflexivity.
Qed.

Lemma string_store_process_profile f question_map rating_tokens counts profile :
  string_identity profile = true ->
  preserves (string_store f)
    (process_profile question_map rating_tokens counts profile).
Proof.
  intros Hid. destruct counts as [n dup]. unfold process_profile.
  apply preserves_bind_lift. intros user_id Huser.
  intros st H. unfold bind, get_store.
  destruct (KDict.mem user_id (existing_data st)); [exact H|].
  unfold lift.
  destruct (reshape_profile question_map rating_tokens user_id profile)
    as [record|e]; [|exact H].
  simpl. destruct H as (Hs & Hd & Hw & Hf). repeat split; simpl; auto.
  - apply KDictFacts.string_keys_set; [|exact Hs].
    now apply (identity_of_string profile).
  - now apply KDictFacts.k_NoDup_keys_set.
Qed.

Lemma string_store_run
    api clk mapping_path mapping iterations min_sleep max_sleep today nh f :
  string_identities api ->
  string_store f
    (fst (scrape_recommendations_multiple api clk mapping_path mapping
            iterations min_sleep max_sleep today nh (start f))).
Proof.
  intros Hapi.
  apply (preserves_scrape_recommendations_multiple (string_store f) api
           string_identity Hapi).
  - apply string_store_emit.
  - apply string_store_write_output.
  - intros. now apply string_store_process_profile.
  - apply string_store_load_existing.
  - repeat split; simpl; auto.
    + constructor.
    + intros d [].
Qed.

(** C1 (as amended). Whatever the number of iterations, the bounds of the
    pauses and the answers of the remote side (errors included), the run
    of the orchestrator leaves a store in memory in which no two keys are
    equal.  When the remote side identifies the profiles it returns by
    strings, every document the run has written to the file has no
    member name twice, and the file is either the one the run found or
    such a document. *)
Theorem scrape_never_duplicates_an_identity
    (api : api_client) (clk : clock) (mapping_path : string)
    (mapping : file json) (iterations : Z) (min_sleep max_sleep : float)
    (active_today new_here : bool) (f : store_file) :
  let final :=
    fst (scrape_recommendations_multiple api clk mapping_path mapping
           iterations min_sleep max_sleep active_today new_here (start f)) in
  NoDup (map canon (KDict.keys (existing_data final)))
  /\ (string_identities api ->
      (forall d, In (Write d) (trace final) -> NoDup (Dict.keys d))
      /\ (output_file final = f
          \/ exists d, output_file final = Document d /\ NoDup (Dict.keys d))).
Proof.
  intros final. split.
  - apply distinct_store_run.
  - intros Hapi.
    exact (proj2 (proj2 (string_store_run api clk mapping_path mapping
                           iterations min_sleep max_sleep active_today
                           new_here f Hapi))).
Qed.

Lemma string_identities_sample_api : string_identities sample_api.
Proof.
  intros i user_ids profiles items Hp Hi. cbn in Hp.
  destruct (mapM as_str user_ids) as [ids|e]; [|discriminate].
  inversion Hp; subst profiles. inversion Hi; subst items.
  apply forallb_forall. intros p Hin.
  apply in_map_iff in Hin. destruct Hin as (id & <- & _). reflexivity.
Qed.

(** The theorem at the two-cycle run against [sample_api]. *)
Lemma scrape_never_duplicates_an_identity_witness :
  string_identities sample_api
  /\ forall d, In (Write d) (trace sample_final) -> NoDup (Dict.keys d).
Proof.
  split; [exact string_identities_sample_api|].
  exact (proj1 (proj2 (scrape_never_duplicates_an_identity sample_api
                         sample_clock sample_mapping_path
                         (Document sample_question_data) 2 5 15 false false
                         Absent)
                  string_identities_sample_api)).
Defined.

(** C1 (as stated) fails: the store file holds a record for the identity
    ["5"], the remote side identifies a profile by the number [5]; the two
    are different keys in memory, and the run writes a document in which
    the member name [5] occurs twice. *)
Lemma integer_identity_is_written_twice :
  snd (scrape_recommendations_multiple numbering_api sample_clock
         sample_mapping_path (Document sample_question_data) 1 5 15
         false false (start sample_store_file)) = Ok tt
  /\ KDict.keys (existing_data numbering_final) = [KStr "5"; KInt 5]
  /\ exists d,
       In (Write d) (trace numbering_final)
       /\ output_file numbering_final = Document d
       /\ Dict.keys d = ["5"; "5"]
       /\ ~ NoDup (Dict.keys d).
Proof.
  split; [reflexivity|]. split; [reflexivity|].
  exists (json_dump (existing_data numbering_final)).
  split; [cbn; do 3 right; left; reflexivity|].
  split; [reflexivity|]. split; [reflexivity|].
  intros H. change (NoDup ["5"; "5"]) in H.
  inversion H as [|? ? Hn _]; subst. apply Hn. now left.
Qed.

(** ** Existing records are never touched *)

Lemma get_canon {V} (k k' : key) (d : KDict.t V) :
  canon k = canon k' -> KDict.get k d = KDict.get k' d.
Proof.
  intros H. induction d as [|[k0 v0] r IH]; simpl; [reflexivity|].
  now rewrite (key_eqb_canon k0 k k' H), IH.
Qed.

Lemma keeps_records_same_store {A} d0 (m : M A) :
  (forall st, existing_data (fst (m st)) = existing_data st) ->
  preserves (keeps_records d0) m.
Proof. intros Hm st H k v Hk. rewrite Hm. now apply H. Qed.

Lemma keeps_records_process_profile d0 question_map rating_tokens counts profile :
  preserves (keeps_records d0)
    (process_profile question_map rating_tokens counts profile).
Proof.
  destruct counts as [n dup]. unfold process_profile.
  apply preserves_bind; [apply preserves_lift|]. intros user_id.
  intros st H. unfold bind, get_store.
  destruct (KDict.mem user_id (existing_data st)) eqn:E; [exact H|].
  unfold lift.
  destruct (reshape_profile question_map rating_tokens user_id profile)
    as [record|e]; [|exact H].
  simpl. intros k v Hk. specialize (H k v Hk). simpl.
  rewrite KDictFacts.k_get_set_other; auto.
  apply key_eqb_neq. intros Heq.
  apply KDictFacts.k_get_none_mem in E.
  rewrite (get_canon user_id k _ Heq) in E. congruence.
Qed.

Lemma keeps_records_scrape_iteration
    d0 api clk question_map iterations min_sleep max_sleep today nh i :
  preserves (keeps_records d0)
    (scrape_iteration api clk question_map iterations min_sleep max_sleep
       today nh i).
Proof.
  apply (preserves_scrape_iteration (keeps_records d0) api (fun _ => true)
           (any_fetched api)).
  - intros ev _. now apply keeps_records_same_store.
  - now apply keeps_records_same_store.
  - intros. apply keeps_records_process_profile.
Qed.

(** A profile whose identity is in the store only raises the duplicate
    count. *)
Lemma process_profile_duplicate question_map rating_tokens n dup profile user_id st :
  identity_of profile = Ok user_id ->
  KDict.mem user_id (existing_data st) = true ->
  process_profile question_map rating_tokens (n, dup) profile st
  = (st, Ok (n, S dup)).
Proof.
  intros Hid Hmem. unfold process_profile, bind, lift, get_store.
  now rewrite Hid, Hmem.
Qed.

(** C2. In every cycle, whether it completes or raises, each record that
    was in the store when the cycle began is still bound to the same value
    afterwards (it is neither overwritten nor deleted); and a returned
    profile whose identity is already in the store changes nothing but the
    duplicate count, which goes up by one. *)
Theorem cycle_keeps_existing_records
    (api : api_client) (clk : clock) (question_map : kdict) (iterations : Z)
    (min_sleep max_sleep : float) (active_today new_here : bool)
    (i : nat) (st : state) :
  (forall k v,
     KDict.get k (existing_data st) = Some v ->
     KDict.get k (existing_data
                    (fst (scrape_iteration api clk question_map iterations
                            min_sleep max_sleep active_today new_here i st)))
     = Some v)
  /\ (forall rating_tokens profile user_id n dup,
        identity_of profile = Ok user_id ->
        KDict.mem user_id (existing_data st) = true ->
        process_profile question_map rating_tokens (n, dup) profile st
        = (st, Ok (n, S dup))).
Proof.
  split.
  - apply (keeps_records_scrape_iteration (existing_data st)).
    intros k v Hk. exact Hk.
  - intros rating_tokens profile user_id n dup Hid Hmem.
    now apply process_profile_duplicate with (user_id := user_id).
Qed.

(** The theorem at a further cycle run on [sample_final], which holds
    [a], [b] and [c]: the cycle returns [b] and [c] again and the record
    of [a] is where it was. *)
Lemma cycle_keeps_existing_records_witness :
  exists record,
    KDict.get (KStr "a") (existing_data sample_final) = Some record
    /\ KDict.get (KStr "a")
         (existing_data
            (fst (scrape_iteration sample_api sample_clock sample_question_map 3
                    5 15 false false 1 sample_final)))
       = Some record.
Proof.
  eexists. split.
  - reflexivity.
  - apply (proj1 (cycle_keeps_existing_records sample_api sample_clock
                    sample_question_map 3 5 15 false false 1 sample_final)).
    reflexivity.
Defined.

(** ** What a completed loop over the returned profiles has done *)

Lemma process_profile_inv question_map rating_tokens n0 d0 profile st st1 n d :
  process_profile question_map rating_tokens (n0, d0) profile st = (st1, Ok (n, d)) ->
  exists id,
    identity_of profile = Ok id
    /\ ((KDict.mem id (existing_data st) = true
         /\ st1 = st /\ n = n0 /\ d = S d0)
        \/ (KDict.mem id (existing_data st) = false
            /\ (exists record,
                  reshape_profile question_map rating_tokens id profile = Ok record
                  /\ st1 = fst (set_store (KDict.set id record (existing_data st)) st))
            /\ n = S n0 /\ d = d0)).
Proof.
  unfold process_profile, bind, lift, get_store.
  destruct (identity_of profile) as [id|e]; [|discriminate].
  intros H. exists id. split; [reflexivity|].
  destruct (KDict.mem id (existing_data st)) eqn:E.
  - left. unfold ret in H. inversion H; subst. auto.
  - right.
    destruct (reshape_profile question_map rating_tokens id profile)
      as [record|e]; [|discriminate].
    simpl in H. unfold ret in H. inversion H; subst.
    split; [reflexivity|]. split; [|auto]. exists record. auto.
Qed.

Lemma member_In id ids : member id ids = true <-> In id ids.
Proof.
  unfold member. rewrite existsb_exists. split.
  - intros [x [Hin Heq]]. apply String.eqb_eq in Heq. now subst.
  - intros Hin. exists id. split; auto. apply String.eqb_refl.
Qed.

(** When the loop over the returned profiles completes, every profile had
    an identity; if no two of these are equal, the store gained exactly
    those that were not in it, in order, and the two counters went up by
    the number of new and of already present identities.  The loop itself
    neither logs nor writes. *)
Lemma process_profiles_inv question_map rating_tokens profiles :
  forall n0 d0 st st1 n d,
    for_each (process_profile question_map rating_tokens) profiles (n0, d0) st
    = (st1, Ok (n, d)) ->
    exists ids,
      mapM identity_of profiles = Ok ids
      /\ output_file st1 = output_file st
      /\ trace st1 = trace st
      /\ (NoDup (map canon ids) ->
          let present := fun id => KDict.mem id (existing_data st) in
          KDict.keys (existing_data st1)
          = (KDict.keys (existing_data st)
             ++ filter (fun id => negb (present id)) ids)%list
          /\ n = (n0 + length (filter (fun id => negb (present id)) ids))%nat
          /\ d = (d0 + length (filter present ids))%nat).
Proof.
  induction profiles as [|p r IH]; intros n0 d0 st st1 n d H.
  - simpl in H. unfold ret in H. inversion H; subst.
    exists []. simpl. repeat split; auto.
    now rewrite app_nil_r.
  - cbn [for_each] in H. unfold bind at 1 in H.
    destruct (process_profile question_map rating_tokens (n0, d0) p st)
      as [st2 [[n2 d2]|e]] eqn:Hp; [|discriminate].
    apply process_profile_inv in Hp. destruct Hp as (id & Hid & Hcase).
    apply IH in H. destruct H as (ids & Hids & Hfile & Htrace & Hnodup).
    exists (id :: ids). simpl. rewrite Hid. simpl. rewrite Hids. simpl.
    split; [reflexivity|].
    destruct Hcase as [(Hmem & -> & -> & ->) | (Hmem & (record & _ & ->) & -> & ->)].
    + split; [exact Hfile|]. split; [exact Htrace|].
      intros Hnd. inversion Hnd as [|? ? Hnotin Hnd']; subst.
      destruct (Hnodup Hnd') as (Hk & Hn & Hd).
      cbv zeta. simpl. rewrite Hmem. simpl. repeat split; auto; lia.
    + split; [exact Hfile|]. split; [exact Htrace|].
      intros Hnd. inversion Hnd as [|? ? Hnotin Hnd']; subst.
      destruct (Hnodup Hnd') as (Hk & Hn & Hd).
      assert (Hsame : forall x, In x ids ->
                KDict.mem x (KDict.set id record (existing_data st))
                = KDict.mem x (existing_data st)).
      { intros x Hx. apply KDictFacts.mem_set_other. apply key_eqb_neq.
        intros Heq. apply Hnotin. rewrite Heq. now apply in_map. }
      simpl in Hk, Hn, Hd.
      rewrite (filter_ext_in
                 (fun x => negb (KDict.mem x (KDict.set id record (existing_data st))))
                 (fun x => negb (KDict.mem x (existing_data st)))) in Hk, Hn
        by (intros x Hx; now rewrite (Hsame x Hx)).
      rewrite (filter_ext_in
                 (fun x => KDict.mem x (KDict.set id record (existing_data st)))
                 (fun x => KDict.mem x (existing_data st))) in Hd
        by exact Hsame.
      cbv zeta. simpl. rewrite Hmem. simpl. repeat split.
      * rewrite Hk, KDictFacts.k_set_fresh, KDictFacts.k_keys_app by assumption.
        simpl. now rewrite <- app_assoc.
      * lia.
      * lia.
Qed.

(** ** What a completed iteration has done *)

Lemma pause_inv clk min_sleep max_sleep i st st' :
  pause clk min_sleep max_sleep i st = (st', Ok tt) ->
  time_sleep clk i (sleep_time clk min_sleep max_sleep i) = Ok tt
  /\ st' = fst (emit (Sleep (sleep_time clk min_sleep max_sleep i))
                  (fst (emit (Info (Sleeping (sleep_time clk min_sleep max_sleep i)))
                          st))).
Proof.
  unfold pause, sleep_time, bind, lift. cbn [emit].
  destruct (time_sleep clk i (uniform min_sleep max_sleep (random_random clk i)))
    as [[]|e]; [|discriminate].
  intros H. inversion H. auto.
Qed.

Lemma scrape_iteration_inv
    api clk question_map iterations min_sleep max_sleep today nh i st st' :
  scrape_iteration api clk question_map iterations min_sleep max_sleep
    today nh i st = (st', Ok tt) ->
  exists recommendations user_ids rating_tokens,
    get_recommendations api i today nh = Ok recommendations
    /\ collect_subjects recommendations = Ok (user_ids, rating_tokens)
    /\ match user_ids with
       | [] =>
           existing_data st' = existing_data st
           /\ output_file st' = output_file st
           /\ trace st'
              = (trace st ++ [Info (StartingIteration (i + 1) iterations);
                              Warning NoUserIds])%list
       | _ :: _ =>
           exists profiles items st1 n d,
             get_public_users api i user_ids = Ok profiles
             /\ py_iter profiles = Ok items
             /\ for_each (process_profile question_map rating_tokens) items
                  (0, 0)%nat
                  (fst (emit (Info (FetchingProfiles (length user_ids)))
                          (fst (emit (Info (StartingIteration (i + 1) iterations))
                                  st))))
                = (st1, Ok (n, d))
             /\ existing_data st' = existing_data st1
             /\ output_file st' = Document (json_dump (existing_data st1))
             /\ trace st'
                = (trace st1
                   ++ closing_events clk iterations min_sleep max_sleep i n d
                        (existing_data st1))%list
             /\ pause_returns clk iterations min_sleep max_sleep i
       end.
Proof.
  intros H. unfold scrape_iteration in H. unfold bind at 1 in H.
  cbn [emit] in H. unfold bind at 1, lift at 1 in H.
  destruct (get_recommendations api i today nh) as [recommendations|e] eqn:Hrec;
    [|discriminate].
  unfold bind at 1, lift at 1 in H.
  destruct (collect_subjects recommendations) as [[user_ids rating_tokens]|e]
    eqn:Hcol; [|discriminate].
  exists recommendations, user_ids, rating_tokens.
  split; [reflexivity|]. split; [exact Hcol|].
  destruct user_ids as [|u us].
  - cbn in H. inversion H; subst. cbn. rewrite <- app_assoc. auto.
  - unfold bind at 1 in H. cbn [emit] in H.
    unfold bind at 1, lift at 1 in H.
    destruct (get_public_users api i (u :: us)) as [profiles|e] eqn:Hpub;
      [|discriminate].
    unfold bind at 1, lift at 1 in H.
    destruct (py_iter profiles) as [items|e] eqn:Hit; [|discriminate].
    unfold bind at 1 in H.
    match type of H with
    | context [for_each ?f ?l ?b ?s] =>
        destruct (for_each f l b s) as [st1 [[n d]|e]] eqn:Hloop; [|discriminate]
    end.
    exists profiles, items, st1, n, d.
    split; [reflexivity|]. split; [exact Hit|]. split; [exact Hloop|].
    unfold closing_events, pause_returns.
    unfold bind at 1, get_store at 1 in H.
    unfold bind at 1 in H. cbn [emit] in H.
    unfold bind at 1 in H. cbn [write_output existing_data trace] in H.
    destruct (Z.of_nat i <? iterations - 1)%Z.
    + apply pause_inv in H. destruct H as (Hsleep & ->). cbn.
      rewrite <- !app_assoc. auto 6.
    + cbn in H. inversion H; subst. cbn.
      rewrite <- !app_assoc. repeat split; auto. discriminate.
Qed.

(** ** Persisting the store *)

Lemma collected_user_ids_of api today nh i recommendations user_ids rating_tokens :
  get_recommendations api i today nh = Ok recommendations ->
  collect_subjects recommendations = Ok (user_ids, rating_tokens) ->
  collected_user_ids api today nh i = Ok user_ids.
Proof.
  intros H1 H2. unfold collected_user_ids. rewrite H1. simpl. now rewrite H2.
Qed.

(** C5 (as amended). A cycle that completes without error and collected at
    least one subject ends by writing the whole store to the output file,
    whose content then is the store in memory; only logging and the pause
    follow the write.  A cycle that completes with no subject collected
    writes nothing: store and file are as they were before it. *)
Theorem completed_cycle_persists_unless_empty
    (api : api_client) (clk : clock) (question_map : kdict) (iterations : Z)
    (min_sleep max_sleep : float) (active_today new_here : bool)
    (i : nat) (st st' : state) :
  scrape_iteration api clk question_map iterations min_sleep max_sleep
    active_today new_here i st
  = (st', Ok tt) ->
  match collected_user_ids api active_today new_here i with
  | Ok (_ :: _) =>
      output_file st' = Document (json_dump (existing_data st'))
      /\ exists before after,
           trace st'
           = (before ++ Write (json_dump (existing_data st')) :: after)%list
           /\ Forall quiet after
  | Ok [] =>
      existing_data st' = existing_data st
      /\ output_file st' = output_file st
      /\ forall d, In (Write d) (trace st') -> In (Write d) (trace st)
  | Err _ => False
  end.
Proof.
  intros H. apply scrape_iteration_inv in H.
  destruct H as (recs & user_ids & rating_tokens & Hrec & Hcol & H).
  rewrite (collected_user_ids_of _ _ _ _ _ _ _ Hrec Hcol).
  destruct user_ids as [|u us].
  - destruct H as (Hs & Hf & Ht). repeat split; auto.
    intros d Hin. rewrite Ht in Hin. apply in_app_or in Hin.
    destruct Hin as [Hin|[Heq|[Heq|[]]]]; auto; discriminate.
  - destruct H as (profiles & items & st1 & n & d & _ & _ & _ & Hs & Hf & Ht & _).
    rewrite Hs. split; [exact Hf|].
    exists (trace st1
            ++ [Info (IterationResult (i + 1) n d (length (existing_data st1)))])%list.
    exists (if (Z.of_nat i <? iterations - 1)%Z
            then [ Info (Sleeping (sleep_time clk min_sleep max_sleep i));
                   Sleep (sleep_time clk min_sleep max_sleep i) ]
            else []).
    split.
    + rewrite Ht. unfold closing_events. now rewrite <- app_assoc.
    + destruct (Z.of_nat i <? iterations - 1)%Z; repeat constructor.
Qed.

(** The theorem at the first cycle of [sample_api], which collects [a]
    and [b]. *)
Lemma completed_cycle_persists_unless_empty_witness :
  output_file
    (fst (scrape_iteration sample_api sample_clock sample_question_map 2 5 15
            false false 0 (start Absent)))
  = Document
      (json_dump
         (existing_data
            (fst (scrape_iteration sample_api sample_clock sample_question_map
                    2 5 15 false false 0 (start Absent))))).
Proof.
  exact (proj1 (completed_cycle_persists_unless_empty
                  sample_api sample_clock sample_question_map 2 5 15
                  false false 0 (start Absent)
                  (fst (scrape_iteration sample_api sample_clock
                          sample_question_map 2 5 15 false false 0
                          (start Absent)))
                  eq_refl)).
Defined.

(** C5 (as stated) fails: a cycle whose recommendations hold no subject
    completes without error and writes nothing; the output file, absent
    before, is still absent. *)
Lemma empty_cycle_writes_nothing :
  snd (scrape_iteration empty_api sample_clock sample_question_map 1 5 15
         false false 0 (start Absent)) = Ok tt
  /\ output_file
       (fst (scrape_iteration empty_api sample_clock sample_question_map 1 5 15
               false false 0 (start Absent))) = Absent
  /\ trace
       (fst (scrape_iteration empty_api sample_clock sample_question_map 1 5 15
               false false 0 (start Absent)))
     = [Info (StartingIteration 1 1); Warning NoUserIds].
Proof. repeat split. Qed.

(** ** Missing mapping asset, malformed store file *)

(** C8 (as amended). With the store file present but not valid JSON the
    run raises the JSON decode error, and with the mapping asset absent
    (and a readable or absent store file) it logs the missing path and
    raises [FileNotFoundError].  Neither is a [HingeAPIError].  Both are
    logged by the handlers and re-raised before anything is fetched or
    written: the outcome does not depend on the remote side. *)
Theorem unreadable_files_abort_the_run
    (api : api_client) (clk : clock) (mapping_path : string)
    (mapping : file json) (iterations : Z) (min_sleep max_sleep : float)
    (active_today new_here : bool) :
  scrape_recommendations_multiple api clk mapping_path mapping iterations
    min_sleep max_sleep active_today new_here (start Malformed)
  = ({| existing_data := []; output_file := Malformed;
        trace := [Error (UnexpectedError JSONDecodeError)] |},
     Err JSONDecodeError)
  /\ scrape_recommendations_multiple api clk mapping_path Absent iterations
       min_sleep max_sleep active_today new_here (start Absent)
     = ({| existing_data := []; output_file := Absent;
           trace :=
             [ Error (MappingNotFound mapping_path);
               Error (ErrorText
                        (FileNotFoundError
                           ("Question mapping file not found: " ++ mapping_path))) ] |},
        Err (FileNotFoundError
               ("Question mapping file not found: " ++ mapping_path)))
  /\ (forall members,
        scrape_recommendations_multiple api clk mapping_path Absent iterations
          min_sleep max_sleep active_today new_here (start (Document members))
        = ({| existing_data := json_load members;
              output_file := Document members;
              trace :=
                [ Error (MappingNotFound mapping_path);
                  Error (ErrorText
                           (FileNotFoundError
                              ("Question mapping file not found: " ++ mapping_path))) ] |},
           Err (FileNotFoundError
                  ("Question mapping file not found: " ++ mapping_path))))
  /\ is_HingeAPIError JSONDecodeError = false
  /\ is_HingeAPIError
       (FileNotFoundError ("Question mapping file not found: " ++ mapping_path))
     = false.
Proof. repeat split. Qed.

(** C8 (as stated) fails: with the mapping asset absent the run raises
    [FileNotFoundError], and with a malformed store file the JSON decode
    error; neither is of the [HingeAPIError] family. *)
Lemma unreadable_files_raise_no_api_error :
  snd (scrape_recommendations_multiple empty_api sample_clock
         sample_mapping_path Absent 1 5 15 false false (start Absent))
  = Err (FileNotFoundError
           "Question mapping file not found: hingesdk/assets/prompts.json")
  /\ kind_of (FileNotFoundError
                "Question mapping file not found: hingesdk/assets/prompts.json")
     = OtherKind
  /\ snd (scrape_recommendations_multiple empty_api sample_clock
            sample_mapping_path (Document sample_question_data) 1 5 15
            false false (start Malformed))
     = Err JSONDecodeError
  /\ kind_of JSONDecodeError = OtherKind.
Proof. repeat split. Qed.

(** ** Transport layer *)

Lemma NoDup_merged_headers self kw : NoDup (Dict.keys (merged_headers self kw)).
Proof.
  unfold merged_headers. apply DictFacts.NoDup_keys_update.
  apply DictFacts.NoDup_keys_of_items.
Qed.

Lemma get_sanitized_headers h k :
  NoDup (Dict.keys h) ->
  Dict.get k (sanitized_headers h)
  = if String.eqb (lower k) "authorization" then None else Dict.get k h.
Proof.
  intros Hnd. unfold sanitized_headers.
  rewrite DictFacts.of_items_distinct by now apply DictFacts.NoDup_keys_filter.
  rewrite (DictFacts.get_filter_key
             (fun k => negb (String.eqb (lower k) "authorization"))).
  now destruct (String.eqb (lower k) "authorization").
Qed.

Lemma raise_for_status_none r :
  raise_for_status r = None <->
  (status_code r < 400 \/ 600 <= status_code r)%Z.
Proof.
  unfold raise_for_status.
  destruct (400 <=? status_code r)%Z eqn:E1;
    destruct (status_code r <? 500)%Z eqn:E2;
    destruct (500 <=? status_code r)%Z eqn:E3;
    destruct (status_code r <? 600)%Z eqn:E4; simpl;
    split; intros H; try discriminate; try reflexivity; lia.
Qed.

(** C3 (as amended). [_request] returns the response when its status is
    outside 400..599 (every 2xx status among them); raises the
    Authentication error on 401; raises the Request error on any other
    status in 400..599; and, when the session raises without a response,
    raises the generic API error carrying the exception type, the URL and
    the method. *)
Theorem request_outcome_by_status
    (self : HingeClient) (method url : string) (kw : kwargs) :
  (forall r,
     client_session self method url (sent_kwargs self kw) = Returned r ->
     (status_code r < 400 \/ 600 <= status_code r)%Z ->
     _request self method url kw = Ok r)
  /\ (forall r,
        client_session self method url (sent_kwargs self kw) = Returned r ->
        status_code r = 401%Z ->
        exists message details,
          _request self method url kw = Err (HingeAuthError message details))
  /\ (forall r,
        client_session self method url (sent_kwargs self kw) = Returned r ->
        (400 <= status_code r < 600)%Z -> status_code r <> 401%Z ->
        exists message details,
          _request self method url kw = Err (HingeRequestError message details))
  /\ (forall type_name str_e,
        client_session self method url (sent_kwargs self kw)
        = Raised type_name str_e ->
        _request self method url kw
        = Err (HingeAPIError ("Request failed: " ++ str_e)
                 [ ("exception_type", JStr type_name);
                   ("url", JStr url);
                   ("method", JStr method) ])).
Proof.
  repeat split.
  - intros r Hs Hst. unfold _request. rewrite Hs.
    apply raise_for_status_none in Hst. now rewrite Hst.
  - intros r Hs Hst. unfold _request. rewrite Hs.
    destruct (raise_for_status r) as [str_e|] eqn:E.
    + rewrite Hst. simpl. unfold HingeAuthError_init. eauto.
    + apply raise_for_status_none in E. lia.
  - intros r Hs Hst Hne. unfold _request. rewrite Hs.
    destruct (raise_for_status r) as [str_e|] eqn:E.
    + destruct (status_code r =? 401)%Z eqn:E401.
      * apply Z.eqb_eq in E401. contradiction.
      * unfold HingeRequestError_init, with_details. eauto.
    + apply raise_for_status_none in E. lia.
  - intros type_name str_e Hs. unfold _request. now rewrite Hs.
Qed.

(** The theorem at a session that answers 401. *)
Lemma request_outcome_by_status_witness :
  exists message details,
    _request (sample_client (session_answering 401 "Unauthorized"))
      "POST" sample_url no_kwargs
    = Err (HingeAuthError message details).
Proof.
  exact (proj1 (proj2 (request_outcome_by_status
                         (sample_client (session_answering 401 "Unauthorized"))
                         "POST" sample_url no_kwargs))
           _ eq_refl eq_refl).
Defined.

(** C3 (as stated) fails: a response with status 304 is not a 2xx
    response, yet [_request] raises nothing and returns it. *)
Lemma not_modified_is_returned :
  _request (sample_client (session_answering 304 "Not Modified"))
    "GET" sample_url no_kwargs
  = Ok {| status_code := 304; reason := "Not Modified"; resp_url := sample_url;
          text := ""; json_body := None |}.
Proof. reflexivity. Qed.

(** C7. When a request fails on the response's status, the error raised
    (Authentication or Request kind) carries under [request_headers] the
    headers that were sent, without any header whose name is
    [authorization] in whatever letter case, and with every other header
    bound to the value that was sent. *)
Theorem error_context_redacts_authorization
    (self : HingeClient) (method url : string) (kw : kwargs) (e : exn) :
  _request self method url kw = Err e ->
  kind_of e = AuthKind \/ kind_of e = RequestKind ->
  exists kept,
    Dict.get "request_headers" (details_of e) = Some (headers_json kept)
    /\ (forall k, lower k = "authorization" -> Dict.get k kept = None)
    /\ (forall k, lower k <> "authorization" ->
                  Dict.get k kept = Dict.get k (merged_headers self kw)).
Proof.
  intros H Hkind. unfold _request in H.
  exists (sanitized_headers (merged_headers self kw)).
  assert (Hget : forall k,
             Dict.get k (sanitized_headers (merged_headers self kw))
             = if String.eqb (lower k) "authorization" then None
               else Dict.get k (merged_headers self kw))
    by (intros k; apply get_sanitized_headers, NoDup_merged_headers).
  split; [|split].
  - destruct (client_session self method url (sent_kwargs self kw))
      as [r|type_name str_e].
    + destruct (raise_for_status r) as [str_e|]; [|discriminate].
      destruct (status_code r =? 401)%Z; inversion H; subst; reflexivity.
    + inversion H; subst. destruct Hkind; discriminate.
  - intros k Hk. rewrite Hget. apply String.eqb_eq in Hk. now rewrite Hk.
  - intros k Hk. rewrite Hget. apply String.eqb_neq in Hk. now rewrite Hk.
Qed.

(** The theorem at a 404 answer to a client that holds a bearer token:
    the error keeps the seventeen device headers and the session id, and
    not the [Authorization] header. *)
Lemma error_context_redacts_authorization_witness :
  exists kept,
    Dict.get "request_headers" (details_of sample_not_found_error)
    = Some (headers_json kept)
    /\ (forall k, lower k = "authorization" -> Dict.get k kept = None)
    /\ (forall k, lower k <> "authorization" ->
                  Dict.get k kept
                  = Dict.get k
                      (merged_headers
                         (sample_client (session_answering 404 "Not Found"))
                         no_kwargs)).
Proof.
  exact (error_context_redacts_authorization
           (sample_client (session_answering 404 "Not Found"))
           "GET" sample_url no_kwargs sample_not_found_error
           eq_refl (or_intror eq_refl)).
Defined.

(** ** The like payload *)

(** C10. Whatever arguments [like_profile] is given, the payload it builds
    binds [rating] to the string [note]. *)
Theorem like_payload_rating_is_note
    (self : HingeClient) (rating_id created subject_id rating_token : string)
    (comment : option string) (photo prompt : option dict)
    (initiated_with origin : string) (has_pairing : bool) :
  Dict.get "rating"
    (like_profile_payload self rating_id created subject_id rating_token
       comment photo prompt initiated_with origin has_pairing)
  = Some (JStr "note").
Proof.
  unfold like_profile_payload.
  match goal with
  | |- context [if ?b then _ else _] => destruct b
  end.
  - apply eq_trans with (y := Dict.get "rating"
      ([ ("ratingId", JStr rating_id); ("ratingToken", JStr rating_token);
         ("subjectId", JStr subject_id);
         ("sessionId", json_of_opt_string (session_id self));
         ("rating", JStr "note"); ("origin", JStr origin);
         ("hasPairing", JBool has_pairing); ("created", JStr created);
         ("initiatedWith", JStr initiated_with) ] : dict)).
    + apply DictFacts.get_set_other. discriminate.
    + reflexivity.
  - reflexivity.
Qed.

(** C4 (as amended). The content block of the payload holds one entry for
    each of comment, photo and prompt that is supplied and not empty, and
    no other entry: any number of them from one to three; when none is
    supplied the payload has no content block.  With only a non-empty
    comment supplied, the block is the comment entry alone. *)
Theorem like_content_holds_what_is_supplied
    (self : HingeClient) (rating_id created subject_id rating_token : string)
    (comment : option string) (photo prompt : option dict)
    (initiated_with origin : string) (has_pairing : bool) :
  match
    Dict.get "content"
      (like_profile_payload self rating_id created subject_id rating_token
         comment photo prompt initiated_with origin has_pairing)
  with
  | Some block =>
      exists content,
        block = JObj content
        /\ Dict.mem "comment" content = supplied_text comment
        /\ Dict.mem "photo" content = supplied_dict photo
        /\ Dict.mem "prompt" content = supplied_dict prompt
        /\ (forall k, In k (Dict.keys content) ->
                      In k ["comment"; "photo"; "prompt"])
        /\ (supplied_text comment || supplied_dict photo
            || supplied_dict prompt = true)
  | None =>
      supplied_text comment || supplied_dict photo || supplied_dict prompt
      = false
  end
  /\ (forall c,
        comment = Some c -> c <> "" -> photo = None -> prompt = None ->
        Dict.get "content"
          (like_profile_payload self rating_id created subject_id rating_token
             comment photo prompt initiated_with origin has_pairing)
        = Some (JObj [("comment", JStr c)])).
Proof.
  split.
  - unfold like_profile_payload, supplied_text, supplied_dict.
    destruct comment as [c|]; [simpl; destruct (String.eqb c "")|];
      (destruct photo as [[|ph0 ph]|]);
      (destruct prompt as [[|pr0 pr]|]);
      cbn;
      try reflexivity;
      (eexists; split; [reflexivity|]; cbn; repeat split; auto;
       intros k Hk; cbn in Hk; tauto).
  - intros c -> Hc -> ->. unfold like_profile_payload. simpl.
    apply String.eqb_neq in Hc. rewrite Hc. reflexivity.
Qed.

(** The theorem at a like that carries only the comment [Hello]. *)
Lemma like_content_holds_what_is_supplied_witness :
  Dict.get "content"
    (like_profile_payload (sample_client session_offline)
       "rating-1" "2026-01-01T00:00:00Z" "subject-1" "token-1"
       (Some "Hello") None None "standard" "compatibles" false)
  = Some (JObj [("comment", JStr "Hello")]).
Proof.
  refine (proj2 (like_content_holds_what_is_supplied
                   (sample_client session_offline)
                   "rating-1" "2026-01-01T00:00:00Z" "subject-1" "token-1"
                   (Some "Hello") None None "standard" "compatibles" false)
            "Hello" eq_refl _ eq_refl eq_refl).
  discriminate.
Defined.

(** C4 (as stated) fails: a like given both a comment and a photo sends a
    content block in which two of the three fields are populated. *)
Lemma like_with_comment_and_photo_populates_two :
  Dict.get "content"
    (like_profile_payload (sample_client session_offline)
       "rating-1" "2026-01-01T00:00:00Z" "subject-1" "token-1"
       (Some "Hello") (Some sample_photo) None "standard" "compatibles" false)
  = Some (JObj [("comment", JStr "Hello"); ("photo", JObj sample_photo)])
  /\ populated [("comment", JStr "Hello"); ("photo", JObj sample_photo)]
     = ["comment"; "photo"].
Proof. split; reflexivity. Qed.

(** ** Reshaping an answer *)

(** C9 (as amended). For an answer whose question id is a hashable value
    (a string, a number, a boolean or [null]) that is not a key of the
    question mapping, the lookup does not fail but falls back: every
    prompt record the reshape step yields has as its [question] the
    string [Unknown Question] and as its [question_id] the id of the
    answer.  The record is yielded for every answer that is not a voice
    answer, and for every voice answer whose transcription is an object
    or is missing. *)
Theorem unknown_question_falls_back
    (question_map : kdict) (answer question_id : json) (qid : key) :
  py_index answer "questionId" = Ok question_id ->
  py_hash question_id = Ok qid ->
  KDict.get qid question_map = None ->
  (forall record,
     reshape_answer question_map answer = Ok record ->
     exists prompt_data,
       record = JObj prompt_data
       /\ Dict.get "question" prompt_data = Some (JStr "Unknown Question")
       /\ Dict.get "question_id" prompt_data = Some question_id)
  /\ (is_voice answer = false ->
      exists record, reshape_answer question_map answer = Ok record)
  /\ (transcription_ok answer = true ->
      exists record, reshape_answer question_map answer = Ok record).
Proof.
  intros Hq Hh Hmap.
  destruct answer as [| | | | |d]; try discriminate.
  unfold reshape_answer, is_voice, transcription_ok.
  rewrite Hq. cbn [rbind]. rewrite Hh. cbn [rbind].
  unfold resolve_question. rewrite Hmap.
  cbn [py_get rbind].
  destruct (is_str
              match Dict.get "type" d with
              | Some v => v
              | None => JStr "text"
              end "voice").
  - split; [|split].
    + intros record.
      destruct (Dict.get "transcription" d) as [[| | | | |t]|];
        cbn; intros H; inversion H; eauto.
    + discriminate.
    + destruct (Dict.get "transcription" d) as [[| | | | |t]|];
        try discriminate; cbn; eauto.
  - split; [|split]; cbn.
    + intros record H. inversion H. eauto.
    + eauto.
    + eauto.
Qed.

(** The theorem at a text answer whose question id is the number [9]. *)
Lemma unknown_question_falls_back_witness :
  exists prompt_data,
    reshape_answer sample_question_map
      (JObj [("questionId", JNum 9); ("response", JStr "Tea")])
    = Ok (JObj prompt_data)
    /\ Dict.get "question" prompt_data = Some (JStr "Unknown Question")
    /\ Dict.get "question_id" prompt_data = Some (JNum 9).
Proof.
  destruct (unknown_question_falls_back sample_question_map
              (JObj [("questionId", JNum 9); ("response", JStr "Tea")])
              (JNum 9) (KInt 9) eq_refl eq_refl eq_refl) as (Hany & Htext & _).
  destruct (Htext eq_refl) as (record & Hrecord).
  destruct (Hany record Hrecord) as (prompt_data & -> & Hquestion & Hid).
  exists prompt_data. auto.
Defined.

(** C9 (as stated) fails: the question id of this text answer is a list,
    which is no key of the mapping; the lookup cannot hash it and the
    reshape step raises [TypeError]. *)
Lemma unhashable_question_id_raises :
  py_index list_question_answer "questionId" = Ok (JArr [JStr "q9"])
  /\ (forall k, In k (KDict.keys sample_question_map) ->
                json_of_key k <> JArr [JStr "q9"])
  /\ is_voice list_question_answer = false
  /\ reshape_answer sample_question_map list_question_answer = Err TypeError.
Proof.
  repeat split. intros k _. destruct k; discriminate.
Qed.

(** A voice answer whose transcription is [null] does not reshape:
    [answer.get("transcription", {})] gives [None], on which
    [transcription.get] raises. *)
Example null_transcription_raises :
  reshape_answer sample_question_map untranscribed_voice_answer
  = Err AttributeError.
Proof. reflexivity. Qed.

(** ** Two overlapping cycles *)

Lemma filter_map_KStr (p : key -> bool) (ids : list string) :
  filter p (map KStr ids) = map KStr (filter (fun s => p (KStr s)) ids).
Proof.
  induction ids as [|s r IH]; simpl; [reflexivity|].
  destruct (p (KStr s)); simpl; now rewrite IH.
Qed.

Lemma canon_map_KStr (ids : list string) : map canon (map KStr ids) = map KStr ids.
Proof. rewrite map_map. reflexivity. Qed.

Lemma NoDup_map_KStr (ids : list string) : NoDup ids <-> NoDup (map KStr ids).
Proof.
  split.
  - intros H. induction H as [|s r Hn Hr IH]; simpl; constructor; auto.
    intros Hin. apply in_map_iff in Hin. destruct Hin as (x & Hx & Hin).
    inversion Hx; subst. contradiction.
  - apply NoDup_map_inv.
Qed.

Lemma mem_of_keys (d : store) (ids : list string) id :
  KDict.keys d = map KStr ids -> KDict.mem (KStr id) d = member id ids.
Proof.
  intros Hk.
  assert (Hin : KDict.mem (KStr id) d = true <-> In id ids).
  { rewrite KDictFacts.k_mem_keys, Hk, canon_map_KStr. cbn [canon].
    rewrite in_map_iff. split.
    - intros (x & Hx & Hin). inversion Hx; now subst.
    - intros Hin. eauto. }
  destruct (KDict.mem (KStr id) d) eqn:E.
  - symmetry. apply member_In. now apply Hin.
  - destruct (member id ids) eqn:E'; auto.
    apply member_In, Hin in E'. congruence.
Qed.

(** The effect of a completed iteration whose returned identities are
    pairwise different: the store gains the identities it did not hold,
    and the one accounting line the iteration logs, if any, reports as
    duplicates the number of identities the store already held. *)
Lemma scrape_iteration_summary
    api clk question_map iterations min_sleep max_sleep today nh i st st' ids :
  scrape_iteration api clk question_map iterations min_sleep max_sleep
    today nh i st = (st', Ok tt) ->
  returned_identities api today nh i = Ok ids ->
  NoDup (map canon ids) ->
  let present := fun id => KDict.mem id (existing_data st) in
  KDict.keys (existing_data st')
  = (KDict.keys (existing_data st) ++ filter (fun id => negb (present id)) ids)%list
  /\ (forall number n d t,
        In (Info (IterationResult number n d t)) (trace st') ->
        In (Info (IterationResult number n d t)) (trace st)
        \/ (number = i + 1 /\ d = length (filter present ids))%nat)
  /\ (ids <> [] ->
      exists n t,
        In (Info (IterationResult (i + 1) n (length (filter present ids)) t))
           (trace st')).
Proof.
  intros H Hids Hnd present.
  apply scrape_iteration_inv in H.
  destruct H as (recs & user_ids & rating_tokens & Hrec & Hcol & H).
  unfold returned_identities in Hids. rewrite Hrec in Hids. cbn [rbind] in Hids.
  rewrite Hcol in Hids. cbn [rbind fst] in Hids.
  destruct user_ids as [|u us].
  - inversion Hids; subst ids. destruct H as (Hs & _ & Ht).
    rewrite Hs, Ht. cbn. rewrite app_nil_r. repeat split; auto.
    + intros number n d t Hin. left. apply in_app_or in Hin.
      destruct Hin as [Hin|[Heq|[Heq|[]]]]; auto; discriminate.
    + intros Hne. now contradiction Hne.
  - destruct H as (profiles & items & st1 & n1 & d1 & Hpub & Hit & Hloop & Hs
                   & _ & Ht & _).
    rewrite Hpub in Hids. cbn [rbind] in Hids. rewrite Hit in Hids.
    cbn [rbind] in Hids.
    apply process_profiles_inv in Hloop.
    destruct Hloop as (ids' & Hids' & _ & Htrace & Hnodup).
    rewrite Hids' in Hids. inversion Hids; subst ids'.
    destruct (Hnodup Hnd) as (Hk & Hn & Hd). cbn in Hk, Hn, Hd, Htrace.
    rewrite Hs, Ht, Htrace. split; [exact Hk|]. split.
    + intros number n d t Hin.
      apply in_app_or in Hin. destruct Hin as [Hin|Hin].
      * left. apply in_app_or in Hin.
        destruct Hin as [Hin|[Heq|[]]]; [|discriminate].
        apply in_app_or in Hin.
        destruct Hin as [Hin|[Heq|[]]]; [exact Hin|discriminate].
      * right. unfold closing_events in Hin. cbn in Hin.
        destruct Hin as [Heq|[Heq|Hin]]; try discriminate.
        -- inversion Heq; subst. split; [reflexivity|]. exact (eq_refl).
        -- destruct (Z.of_nat i <? iterations - 1)%Z; cbn in Hin;
             [destruct Hin as [Heq|[Heq|[]]]; discriminate | destruct Hin].
    + intros _. exists n1, (length (existing_data st1)).
      apply in_or_app. right. unfold closing_events. cbn. left.
      now rewrite Hd.
Qed.

Lemma two_cycle_run_inv
    api clk mapping_path mapping min_sleep max_sleep today nh f final :
  f = Absent \/ f = Document [] ->
  scrape_recommendations_multiple api clk mapping_path mapping 2
    min_sleep max_sleep today nh (start f)
  = (final, Ok tt) ->
  exists question_map s1 s2,
    scrape_iteration api clk question_map 2 min_sleep max_sleep today nh 0
      (start f) = (s1, Ok tt)
    /\ scrape_iteration api clk question_map 2 min_sleep max_sleep today nh 1 s1
       = (s2, Ok tt)
    /\ existing_data final = existing_data s2
    /\ trace final
       = (trace s2 ++ [Info (Completed 2 (length (existing_data s2)))])%list.
Proof.
  intros Hf H. unfold scrape_recommendations_multiple in H.
  destruct (scrape_body api clk mapping_path mapping 2 min_sleep max_sleep
              today nh (start f))
    as [st' [[]|e]] eqn:Hb; [|discriminate].
  inversion H; subst st'. clear H.
  unfold scrape_body in Hb. unfold bind at 1 in Hb.
  assert (Hload : load_existing (start f) = (start f, Ok tt))
    by (destruct Hf; subst f; reflexivity).
  rewrite Hload in Hb. unfold bind at 1 in Hb.
  destruct mapping as [| |question_data]; try discriminate.
  cbn [load_question_data ret] in Hb.
  unfold bind at 1, lift at 1 in Hb.
  destruct (build_question_map question_data) as [question_map|e];
    [|discriminate].
  unfold bind at 1, scrape_loop in Hb.
  change (Z.to_nat 2) with 2%nat in Hb. cbn [seq for_each] in Hb.
  unfold bind at 1 in Hb.
  destruct (scrape_iteration api clk question_map 2 min_sleep max_sleep
              today nh 0 (start f))
    as [s1 [[]|e]] eqn:H1; [|discriminate].
  unfold bind at 1 in Hb.
  destruct (scrape_iteration api clk question_map 2 min_sleep max_sleep
              today nh 1 s1)
    as [s2 [[]|e]] eqn:H2; [|discriminate].
  cbn in Hb. inversion Hb; subst final.
  exists question_map, s1, s2. auto.
Qed.

(** C6. A run of two cycles that starts from an empty store and completes:
    when the identities returned by the first cycle are pairwise distinct,
    and so are those of the second, the final store holds exactly the
    identities returned by either cycle, each once, so as many records as
    the union has elements; and the accounting line that the second cycle
    logs reports as duplicates exactly the number of identities that both
    cycles returned.  The line is logged whenever the second cycle returned
    an identity. *)
Theorem two_cycles_union_and_overlap
    (api : api_client) (clk : clock) (mapping_path : string)
    (mapping : file json) (min_sleep max_sleep : float)
    (active_today new_here : bool) (f : store_file) (final : state)
    (ids1 ids2 : list string) :
  f = Absent \/ f = Document [] ->
  scrape_recommendations_multiple api clk mapping_path mapping 2
    min_sleep max_sleep active_today new_here (start f) = (final, Ok tt) ->
  returned_identities api active_today new_here 0 = Ok (map KStr ids1) ->
  returned_identities api active_today new_here 1 = Ok (map KStr ids2) ->
  NoDup ids1 -> NoDup ids2 ->
  let k := length (filter (fun id => member id ids1) ids2) in
  length (existing_data final) = length (nodup string_dec (ids1 ++ ids2))
  /\ (length (existing_data final) + k = length ids1 + length ids2)%nat
  /\ KDict.keys (existing_data final)
     = map KStr (ids1 ++ filter (fun id => negb (member id ids1)) ids2)%list
  /\ (forall n d t,
        In (Info (IterationResult 2 n d t)) (trace final) -> d = k)
  /\ (ids2 <> [] ->
      exists n t, In (Info (IterationResult 2 n k t)) (trace final)).
Proof.
  intros Hf Hrun H1 H2 Hnd1 Hnd2 k.
  pose proof (distinct_store_run api clk mapping_path mapping 2
                min_sleep max_sleep active_today new_here f) as Hnodup.
  rewrite Hrun in Hnodup. cbn [fst] in Hnodup.
  unfold distinct_store, distinct_keys in Hnodup.
  destruct (two_cycle_run_inv _ _ _ _ _ _ _ _ _ _ Hf Hrun)
    as (question_map & s1 & s2 & Hc1 & Hc2 & Hstore & Htrace).
  assert (Hd1 : NoDup (map canon (map KStr ids1)))
    by (rewrite canon_map_KStr; now apply NoDup_map_KStr).
  assert (Hd2 : NoDup (map canon (map KStr ids2)))
    by (rewrite canon_map_KStr; now apply NoDup_map_KStr).
  destruct (scrape_iteration_summary _ _ _ _ _ _ _ _ _ _ _ _ Hc1 H1 Hd1)
    as (Hk1 & Hacc1 & _).
  destruct (scrape_iteration_summary _ _ _ _ _ _ _ _ _ _ _ _ Hc2 H2 Hd2)
    as (Hk2 & Hacc2 & Hlog2).
  cbn in Hk1.
  assert (Hkeys1 : KDict.keys (existing_data s1) = map KStr ids1).
  { rewrite Hk1. apply forallb_filter_id. apply forallb_forall. reflexivity. }
  assert (Hmem : forall id, KDict.mem (KStr id) (existing_data s1)
                            = member id ids1)
    by (intros id; now apply mem_of_keys).
  rewrite !filter_map_KStr, !length_map in Hacc2, Hlog2.
  rewrite (filter_ext _ _ Hmem) in Hacc2, Hlog2.
  rewrite filter_map_KStr in Hk2.
  rewrite (filter_ext (fun id => negb (KDict.mem (KStr id) (existing_data s1)))
             (fun id => negb (member id ids1))) in Hk2
    by (intros id; now rewrite Hmem).
  rewrite Hkeys1, <- map_app in Hk2.
  assert (Hkeys : KDict.keys (existing_data final)
                  = map KStr
                      (ids1 ++ filter (fun id => negb (member id ids1)) ids2)%list)
    by (now rewrite Hstore).
  assert (Hlen : length (existing_data final)
                 = (length ids1
                    + length (filter (fun id => negb (member id ids1)) ids2))%nat).
  { rewrite <- (length_map fst (existing_data final)).
    change (map fst (existing_data final)) with (KDict.keys (existing_data final)).
    now rewrite Hkeys, length_map, length_app. }
  repeat split.
  - rewrite <- (length_map fst (existing_data final)).
    change (map fst (existing_data final)) with (KDict.keys (existing_data final)).
    rewrite Hkeys, length_map.
    rewrite Hkeys, canon_map_KStr in Hnodup. apply NoDup_map_KStr in Hnodup.
    apply Permutation_length, NoDup_Permutation.
    + exact Hnodup.
    + apply NoDup_nodup.
    + intros id. rewrite nodup_In, !in_app_iff, filter_In.
      split; [tauto|]. intros [Hin|Hin]; auto.
      destruct (member id ids1) eqn:E; [|auto].
      left. now apply member_In.
  - rewrite Hlen. subst k.
    pose proof (filter_length (fun id => member id ids1) ids2). lia.
  - exact Hkeys.
  - intros n d t Hin. rewrite Htrace in Hin. apply in_app_or in Hin.
    destruct Hin as [Hin|[Heq|[]]]; [|discriminate].
    destruct (Hacc2 _ _ _ _ Hin) as [Hin1|[_ Hd]]; [|exact Hd].
    destruct (Hacc1 _ _ _ _ Hin1) as [[]|[Hnum _]]. discriminate.
  - intros Hne. destruct Hlog2 as (n & t & Hin).
    + intros Hnil. apply Hne. now destruct ids2.
    + exists n, t. rewrite Htrace. apply in_or_app. now left.
Qed.

(** The theorem at [sample_api]: the cycles return [a], [b] and then [b],
    [c]; the run ends with three records and the second cycle logs one
    duplicate. *)
Lemma two_cycles_union_and_overlap_witness :
  length (existing_data sample_final) = 3%nat
  /\ (forall n d t,
        In (Info (IterationResult 2 n d t)) (trace sample_final) -> d = 1%nat).
Proof.
  assert (Hab : NoDup ["a"; "b"]).
  { repeat constructor; simpl; intuition discriminate. }
  assert (Hbc : NoDup ["b"; "c"]).
  { repeat constructor; simpl; intuition discriminate. }
  destruct (two_cycles_union_and_overlap sample_api sample_clock
              sample_mapping_path (Document sample_question_data) 5 15
              false false Absent sample_final ["a"; "b"] ["b"; "c"]
              (or_introl eq_refl) eq_refl eq_refl eq_refl Hab Hbc)
    as (Hlen & _ & _ & Hdup & _).
  split; [exact Hlen | exact Hdup].
Defined.

(* ================================================================== *)
(** * Part III: further properties of the code *)
(* ================================================================== *)

(** ** Updating a dictionary *)

Module UpdateFacts.
Section Facts.
Context {V : Type}.
Implicit Types (d other : Dict.t V) (k : string) (v : V).



End Facts.
End UpdateFacts.

(** ** Which headers a request carries *)










(** ** What an error tells about the request *)

Lemma raise_for_status_some r str_e :
  raise_for_status r = Some str_e -> (400 <= status_code r < 600)%Z.
Proof.
  intros H.
  destruct (Z_lt_le_dec (status_code r) 400) as [Hlt|Hge].
  - assert (Hn : raise_for_status r = None)
      by (apply raise_for_status_none; lia). congruence.
  - destruct (Z_lt_le_dec (status_code r) 600) as [Hlt|Hge']; [lia|].
    assert (Hn : raise_for_status r = None)
      by (apply raise_for_status_none; lia). congruence.
Qed.

(** An error of the Authentication or Request kind comes from a response
    with a status in 400..599, and its [details] are the five members
    of [status_error_details]. *)
Lemma request_failure_inv self method url kw e :
  _request self method url kw = Err e ->
  kind_of e = AuthKind \/ kind_of e = RequestKind ->
  exists r,
    client_session self method url (sent_kwargs self kw) = Returned r
    /\ (400 <= status_code r < 600)%Z
    /\ details_of e = status_error_details self url kw r
    /\ (kind_of e = AuthKind <-> status_code r = 401%Z).
Proof.
  intros H Hkind. unfold _request in H.
  destruct (client_session self method url (sent_kwargs self kw))
    as [r|type_name str_e].
  - exists r. split; [reflexivity|].
    destruct (raise_for_status r) as [str_e|] eqn:Hr; [|discriminate].
    split; [now apply raise_for_status_some in Hr|].
    unfold status_error_details.
    destruct (status_code r =? 401)%Z eqn:E; inversion H; subst; clear H.
    + apply Z.eqb_eq in E. split.
      * cbn. unfold py_or. cbn. now destruct (String.eqb (text r) "").
      * split; auto.
    + apply Z.eqb_neq in E. split.
      * cbn. unfold py_or. cbn. now destruct (String.eqb (text r) "").
      * split; [discriminate | contradiction].
  - inversion H; subst. destruct Hkind; discriminate.
Qed.

(** X3. An error that [_request] raises for the status of a response
    tells where it comes from: the status code of the response, which is
    in 400..599; the URL requested, as [endpoint]; the body sent, which
    is the [json] argument unless that is missing or falsy, and then the
    [data] argument; and the text of the response, or [No response body]
    when the text is empty.  Its kind is Authentication exactly when the
    status is 401. *)
Theorem status_error_context
    (self : HingeClient) (method url : string) (kw : kwargs) (e : exn) :
  _request self method url kw = Err e ->
  kind_of e = AuthKind \/ kind_of e = RequestKind ->
  exists r,
    client_session self method url (sent_kwargs self kw) = Returned r
    /\ (400 <= status_code r < 600)%Z
    /\ Dict.get "status_code" (details_of e) = Some (JNum (status_code r))
    /\ Dict.get "endpoint" (details_of e) = Some (JStr url)
    /\ Dict.get "request_body" (details_of e)
       = Some (py_or (of_option (kw_json kw)) (of_option (kw_data kw)))
    /\ Dict.get "response_body" (details_of e)
       = Some (JStr (if String.eqb (text r) "" then "No response body"
                     else text r))
    /\ (kind_of e = AuthKind <-> status_code r = 401%Z).
Proof.
  intros H Hkind.
  destruct (request_failure_inv _ _ _ _ _ H Hkind) as (r & Hs & Hr & Hd & Hk).
  exists r. rewrite Hd.
  split; [exact Hs|]. split; [exact Hr|].
  split; [reflexivity|]. split; [reflexivity|]. split; [reflexivity|].
  split; [reflexivity|exact Hk].
Qed.

(** The theorem at the 404 answer of [sample_not_found_error]. *)
Lemma status_error_context_witness :
  exists r,
    session_answering 404 "Not Found" "GET" sample_url
      (sent_kwargs (sample_client (session_answering 404 "Not Found")) no_kwargs)
    = Returned r
    /\ (400 <= status_code r < 600)%Z
    /\ Dict.get "status_code" (details_of sample_not_found_error)
       = Some (JNum (status_code r))
    /\ Dict.get "endpoint" (details_of sample_not_found_error)
       = Some (JStr sample_url)
    /\ Dict.get "request_body" (details_of sample_not_found_error)
       = Some (py_or (of_option (kw_json no_kwargs)) (of_option (kw_data no_kwargs)))
    /\ Dict.get "response_body" (details_of sample_not_found_error)
       = Some (JStr (if String.eqb (text r) "" then "No response body"
                     else text r))
    /\ (kind_of sample_not_found_error = AuthKind <-> status_code r = 401%Z).
Proof.
  exact (status_error_context
           (sample_client (session_answering 404 "Not Found"))
           "GET" sample_url no_kwargs sample_not_found_error
           eq_refl (or_intror eq_refl)).
Defined.

Lemma join_ids_error ids e : API.join_ids ids = Err e -> e = TypeError.
Proof.
  unfold API.join_ids.
  assert (H : forall l, mapM as_str l = Err e -> e = TypeError).
  { induction l as [|j r IH]; cbn; [discriminate|].
    destruct j; cbn; try (intros H; now inversion H).
    destruct (mapM as_str r); cbn; [discriminate|].
    intros H. apply IH. now inversion H. }
  destruct (mapM as_str ids) as [l|e'] eqn:E; cbn; [discriminate|].
  intros H'. inversion H'; subst. now apply (H ids).
Qed.

(** X4. When a like, a message or a fetch of recommendations fails on
    the status of the response, the error reports as [request_body] the
    very payload the method built, and as [endpoint] the method's URL;
    when one of the GET methods fails so, the [request_body] is [None]. *)
Theorem failed_call_reports_its_payload (self : HingeClient) (e : exn) :
  kind_of e = AuthKind \/ kind_of e = RequestKind ->
  (forall rating_id created subject_id rating_token comment photo prompt
          initiated_with origin has_pairing,
     like_profile self rating_id created subject_id rating_token comment
       photo prompt initiated_with origin has_pairing = Err e ->
     Dict.get "request_body" (details_of e)
     = Some (JObj (like_profile_payload self rating_id created subject_id
                     rating_token comment photo prompt initiated_with origin
                     has_pairing))
     /\ Dict.get "endpoint" (details_of e)
        = Some (JStr (BASE_URL ++ "/rate/v2/initiate")))
  /\ (forall dedup_id subject_id message match_message origin message_type ays,
        API.send_message self dedup_id subject_id message match_message origin
          message_type ays = Err e ->
        Dict.get "request_body" (details_of e)
        = Some (JObj (API.send_message_payload dedup_id subject_id message
                        match_message origin message_type ays))
        /\ Dict.get "endpoint" (details_of e)
           = Some (JStr (BASE_URL ++ "/message/send")))
  /\ (forall active_today new_here,
        API.get_recommendations self active_today new_here = Err e ->
        Dict.get "request_body" (details_of e)
        = Some (JObj (API.recommendations_payload self active_today new_here))
        /\ Dict.get "endpoint" (details_of e)
           = Some (JStr (BASE_URL ++ "/rec/v2")))
  /\ (forall user_ids,
        API.get_public_users self user_ids = Err e ->
        Dict.get "request_body" (details_of e) = Some JNull
        /\ Dict.get "endpoint" (details_of e)
           = Some (JStr (BASE_URL ++ "/user/v2/public")))
  /\ (forall path,
        API.get_json self path = Err e ->
        Dict.get "request_body" (details_of e) = Some JNull
        /\ Dict.get "endpoint" (details_of e) = Some (JStr (BASE_URL ++ path))).
Proof.
  intros Hkind.
  assert (Hreq : forall method url kw,
             rbind (_request self method url kw) response_json = Err e ->
             _request self method url kw = Err e).
  { intros method url kw H.
    destruct (_request self method url kw) as [r|e'] eqn:E; simpl in H.
    - unfold response_json in H. destruct (json_body r); inversion H; subst.
      destruct Hkind; discriminate.
    - inversion H; subst. reflexivity. }
  repeat split; intros;
    try match goal with
        | H : API.get_public_users _ ?ids = Err e |- _ =>
            unfold API.get_public_users in H;
            destruct (API.join_ids ids) as [joined|e'] eqn:Hjoin; cbn [rbind] in H;
            [| inversion H; subst e'; apply join_ids_error in Hjoin; subst e;
               destruct Hkind; discriminate ]
        end;
    match goal with
    | H : _ = Err e |- _ =>
        apply Hreq in H;
        destruct (request_failure_inv _ _ _ _ _ H Hkind) as (r & _ & _ & Hd & _);
        rewrite Hd; try reflexivity
    end.
  cbn. unfold like_profile_payload.
  match goal with |- context [if ?b then _ else _] => destruct b end;
    reflexivity.
Qed.

(** The theorem at a like of a photo that is answered 404. *)
Lemma failed_call_reports_its_payload_witness :
  Dict.get "request_body" (details_of sample_failed_like)
  = Some (JObj (like_profile_payload
                  (sample_client (session_answering 404 "Not Found"))
                  "rating-1" "2026-01-01T00:00:00Z" "subject-1" "token-1"
                  None (Some sample_photo) None "standard" "compatibles" false))
  /\ Dict.get "endpoint" (details_of sample_failed_like)
     = Some (JStr (BASE_URL ++ "/rate/v2/initiate")).
Proof.
  exact (proj1 (failed_call_reports_its_payload
                  (sample_client (session_answering 404 "Not Found"))
                  sample_failed_like (or_intror eq_refl))
           "rating-1" "2026-01-01T00:00:00Z" "subject-1" "token-1"
           None (Some sample_photo) None "standard" "compatibles" false
           eq_refl).
Defined.

(** ** The media client *)




(** ** SMS login *)

Example sample_login_succeeds :
  sample_logged_in
  = Ok {| call_auth_token := JStr "fresh-token";
          call_device_id := "device-1";
          call_install_id := "install-1";
          call_user_id := JStr "player-7";
          call_session_id := JStr "0b1c2d3e-0000-4000-8000-000000000000" |}
  /\ Dict.get "Authorization" (default_headers sample_login_client)
     = Some "Bearer fresh-token".
Proof. split; reflexivity. Qed.

(** A token that is a number is passed to the constructor as it is. *)
Example numeric_token_is_passed_on :
  login_with_sms numeric_token_session "123456"
    "0b1c2d3e-0000-4000-8000-000000000000" "+12345678901" "device-1" "install-1"
  = Ok {| call_auth_token := JNum 12345;
          call_device_id := "device-1";
          call_install_id := "install-1";
          call_user_id := JNull;
          call_session_id := JStr "0b1c2d3e-0000-4000-8000-000000000000" |}.
Proof. reflexivity. Qed.



(** X7. How [login_with_sms] fails.  An error of the initiate request is
    raised as it is, whatever the server would answer to a verification;
    so is an error of the verify request.  A verification response whose
    body is not JSON raises the generic API error with the status code
    and the text of the response; one whose JSON object has no token, or
    a falsy one, raises the generic API error with the decoded response:
    no client is returned. *)
Theorem login_failures
    (sess : session) (sms_code fresh_uuid : string)
    (phone_number device_id install_id : string) :
  let temp := temp_client sess device_id install_id in
  let initiate :=
    _request temp "POST" initiate_url
      (json_request (initiate_payload phone_number device_id) json_content_type) in
  let verify :=
    _request temp "POST" verify_url
      (json_request (verify_payload phone_number device_id install_id sms_code)
         json_content_type) in
  let login :=
    login_with_sms sess sms_code fresh_uuid phone_number device_id install_id in
  (forall e, initiate = Err e -> login = Err e)
  /\ (forall r e, initiate = Ok r -> verify = Err e -> login = Err e)
  /\ (forall r verify_response,
        initiate = Ok r -> verify = Ok verify_response ->
        json_body verify_response = None ->
        login
        = Err (HingeAPIError "Failed to parse verification response"
                 [ ("status_code", JNum (status_code verify_response));
                   ("response_text", JStr (text verify_response)) ]))
  /\ (forall r verify_response d,
        initiate = Ok r -> verify = Ok verify_response ->
        json_body verify_response = Some (JObj d) ->
        truthy (match Dict.get "token" d with Some v => v | None => JNull end)
        = false ->
        login
        = Err (HingeAPIError "Failed to retrieve authentication token"
                 [("response", JObj d)])).
Proof.
  intros temp initiate verify login. subst temp initiate verify login.
  unfold login_with_sms.
  split; [|split; [|split]].
  - intros e H. now rewrite H.
  - intros r e H1 H2. rewrite H1. cbn [rbind]. now rewrite H2.
  - intros r vr H1 H2 Hb. rewrite H1. cbn [rbind]. rewrite H2. cbn [rbind].
    unfold response_json. now rewrite Hb.
  - intros r vr d H1 H2 Hb Ht. rewrite H1. cbn [rbind]. rewrite H2.
    cbn [rbind]. unfold response_json. rewrite Hb. cbn [rbind py_get].
    now rewrite Ht.
Qed.

(** The theorem at a server whose verification answer has no token. *)
Lemma login_failures_witness :
  login_with_sms tokenless_login_session "123456"
    "0b1c2d3e-0000-4000-8000-000000000000" "+12345678901" "device-1" "install-1"
  = Err (HingeAPIError "Failed to retrieve authentication token"
           [("response", JObj [("playerId", JStr "player-7")])]).
Proof.
  exact (proj2 (proj2 (proj2
           (login_failures tokenless_login_session "123456"
              "0b1c2d3e-0000-4000-8000-000000000000" "+12345678901"
              "device-1" "install-1")))
           _ _ [("playerId", JStr "player-7")] eq_refl eq_refl eq_refl eq_refl).
Defined.

(** ** A rejected token during a cycle *)

Lemma raise_for_status_401 r :
  status_code r = 401%Z -> exists str_e, raise_for_status r = Some str_e.
Proof.
  intros H. destruct (raise_for_status r) as [str_e|] eqn:E; eauto.
  apply raise_for_status_none in E. lia.
Qed.

(** X8. From the session to the orchestrator: when, in some iteration,
    the server answers the recommendations request of the SDK client with
    status 401, the iteration raises an error of the Authentication kind
    having logged only its start; the store and the output file are as
    they were.  When this happens in the first iteration of a run, the
    run raises that error, logs it as an API error, and has fetched no
    profile and written nothing. *)
Theorem unauthorized_cycle_aborts
    (self : HingeClient) (net : remote) (clk : clock) (question_map : kdict)
    (iterations : Z) (min_sleep max_sleep : float)
    (active_today new_here : bool) (i : nat) (r : response) :
  net i "POST" (BASE_URL ++ "/rec/v2")
    (sent_kwargs (at_time self net i)
       {| kw_headers := None;
          kw_json := Some (JObj (API.recommendations_payload self active_today
                                   new_here));
          kw_data := None; kw_params := None |})
  = Returned r ->
  status_code r = 401%Z ->
  exists e,
    kind_of e = AuthKind
    /\ (forall st,
          scrape_iteration (api_over self net) clk question_map iterations
            min_sleep max_sleep active_today new_here i st
          = (fst (emit (Info (StartingIteration (i + 1) iterations)) st), Err e))
    /\ (i = 0%nat -> (0 < iterations)%Z ->
        forall mapping_path question_data f,
          f <> Malformed ->
          build_question_map question_data = Ok question_map ->
          let final :=
            scrape_recommendations_multiple (api_over self net) clk mapping_path
              (Document question_data) iterations min_sleep max_sleep
              active_today new_here (start f) in
          snd final = Err e
          /\ output_file (fst final) = f
          /\ trace (fst final)
             = [Info (StartingIteration 1 iterations);
                Error (ApiErrorOccurred e)]).
Proof.
  intros Hs H401.
  destruct (raise_for_status_401 r H401) as [str_e Hraise].
  assert (Hrec : exists e,
             kind_of e = AuthKind
             /\ get_recommendations (api_over self net) i active_today new_here
                = Err e).
  { cbn [api_over get_recommendations]. unfold API.get_recommendations, _request.
    change (API.recommendations_payload (at_time self net i) active_today new_here)
      with (API.recommendations_payload self active_today new_here).
    change (client_session (at_time self net i)) with (net i).
    rewrite Hs, Hraise. apply Z.eqb_eq in H401. rewrite H401.
    cbn [rbind]. eexists. split; [|reflexivity]. reflexivity. }
  destruct Hrec as (e & Hkind & Hrec).
  assert (Hit : forall st,
             scrape_iteration (api_over self net) clk question_map iterations
               min_sleep max_sleep active_today new_here i st
             = (fst (emit (Info (StartingIteration (i + 1) iterations)) st), Err e)).
  { intros st. unfold scrape_iteration. unfold bind at 1. cbn [emit].
    unfold bind at 1, lift at 1. now rewrite Hrec. }
  exists e. split; [exact Hkind|]. split; [exact Hit|].
  intros -> Hpos mapping_path question_data f Hf Hmap final. subst final.
  assert (Hrun : exists d,
             scrape_recommendations_multiple (api_over self net) clk mapping_path
               (Document question_data) iterations min_sleep max_sleep
               active_today new_here (start f)
             = ({| existing_data := d; output_file := f;
                   trace := [Info (StartingIteration 1 iterations);
                             Error (ApiErrorOccurred e)] |}, Err e)).
  { assert (Hload : exists d,
               load_existing (start f)
               = ({| existing_data := d; output_file := f; trace := [] |}, Ok tt)).
    { destruct f as [| |members]; [eexists; reflexivity | contradiction
                                  | eexists; reflexivity]. }
    destruct Hload as (d & Hload). exists d.
    unfold scrape_recommendations_multiple, scrape_body.
    unfold bind at 1. rewrite Hload.
    unfold bind at 1. cbn [load_question_data ret].
    unfold bind at 1, lift at 1. rewrite Hmap.
    unfold bind at 1, scrape_loop.
    destruct (Z.to_nat iterations) as [|n] eqn:En; [lia|].
    cbn [seq for_each]. unfold bind at 1. rewrite Hit. cbn.
    destruct e; try discriminate. reflexivity. }
  destruct Hrun as (d & ->). repeat split.
Qed.

(** The theorem at a server that answers 401 to everything. *)
Lemma unauthorized_cycle_aborts_witness :
  exists e,
    kind_of e = AuthKind
    /\ snd (scrape_recommendations_multiple
              (api_over (sample_client session_offline) rejecting_remote)
              sample_clock sample_mapping_path (Document sample_question_data)
              3 5 15 false false (start Absent))
       = Err e.
Proof.
  destruct (unauthorized_cycle_aborts (sample_client session_offline)
              rejecting_remote sample_clock sample_question_map 3 5 15
              false false 0 _ eq_refl eq_refl) as (e & Hkind & _ & Hrun).
  exists e. split; [exact Hkind|].
  refine (proj1 (Hrun eq_refl eq_refl sample_mapping_path sample_question_data
                   Absent _ eq_refl)).
  discriminate.
Defined.

(** ** A cycle that returns nothing new *)

Lemma writes_app tr1 tr2 : writes (tr1 ++ tr2) = (writes tr1 ++ writes tr2)%list.
Proof.
  induction tr1 as [|ev r IH]; [reflexivity|].
  destruct ev; cbn; rewrite IH; reflexivity.
Qed.

Lemma accounting_app tr1 tr2 :
  accounting (tr1 ++ tr2) = (accounting tr1 ++ accounting tr2)%list.
Proof.
  induction tr1 as [|ev r IH]; [reflexivity|].
  destruct ev as [m|m|m|d|secs]; try (cbn; rewrite IH; reflexivity).
  destruct m; cbn; rewrite IH; reflexivity.
Qed.

(** When every returned profile has an identity that the store holds, the
    loop over the profiles changes nothing and counts them all as
    duplicates. *)
Lemma process_profiles_all_present question_map rating_tokens profiles :
  forall ids n0 d0 st,
    mapM identity_of profiles = Ok ids ->
    (forall id, In id ids -> KDict.mem id (existing_data st) = true) ->
    for_each (process_profile question_map rating_tokens) profiles (n0, d0) st
    = (st, Ok (n0, (d0 + length ids)%nat)).
Proof.
  induction profiles as [|p r IH]; intros ids n0 d0 st Hids Hall.
  - inversion Hids; subst. cbn. now rewrite Nat.add_0_r.
  - cbn [mapM] in Hids.
    destruct (identity_of p) as [id|e] eqn:Hid; [|discriminate].
    cbn [rbind] in Hids.
    destruct (mapM identity_of r) as [ids'|e] eqn:Hr; [|discriminate].
    inversion Hids; subst ids. clear Hids.
    cbn [for_each]. unfold bind at 1.
    rewrite (process_profile_duplicate _ _ _ _ _ id) by (auto; apply Hall; now left).
    rewrite (IH ids' n0 (S d0) st eq_refl) by (intros x Hx; apply Hall; now right).
    cbn [length]. now rewrite Nat.add_succ_r.
Qed.

(** X9. A cycle that returns only identities the store already holds
    leaves the store as it was.  If it collected a subject, it logs zero
    new profiles and as many duplicates as profiles were returned, and
    writes the unchanged store to the file; it then completes if it is
    the last cycle, and otherwise ends as its pause does: it completes
    when [time.sleep] returns and raises what [time.sleep] raises.  If it
    collected no subject, it logs no accounting line, writes nothing and
    completes. *)
Theorem known_identities_change_nothing
    (api : api_client) (clk : clock) (question_map : kdict) (iterations : Z)
    (min_sleep max_sleep : float) (active_today new_here : bool)
    (i : nat) (st : state) (ids : list key) :
  returned_identities api active_today new_here i = Ok ids ->
  (forall id, In id ids -> KDict.mem id (existing_data st) = true) ->
  let run :=
    scrape_iteration api clk question_map iterations min_sleep max_sleep
      active_today new_here i st in
  existing_data (fst run) = existing_data st
  /\ match collected_user_ids api active_today new_here i with
     | Ok (_ :: _) =>
         accounting (trace (fst run))
         = (accounting (trace st)
            ++ [((i + 1)%nat, 0%nat, length ids, length (existing_data st))])%list
         /\ writes (trace (fst run))
            = (writes (trace st) ++ [json_dump (existing_data st)])%list
         /\ output_file (fst run) = Document (json_dump (existing_data st))
         /\ snd run
            = (if (Z.of_nat i <? iterations - 1)%Z
               then time_sleep clk i (sleep_time clk min_sleep max_sleep i)
               else Ok tt)
     | _ =>
         accounting (trace (fst run)) = accounting (trace st)
         /\ writes (trace (fst run)) = writes (trace st)
         /\ output_file (fst run) = output_file st
         /\ snd run = Ok tt
     end.
Proof.
  intros Hids Hall run. subst run.
  destruct (scrape_iteration api clk question_map iterations min_sleep max_sleep
              active_today new_here i st) as [st' r] eqn:Hrun.
  cbn [fst snd].
  unfold returned_identities in Hids. unfold collected_user_ids.
  unfold scrape_iteration in Hrun. unfold bind at 1 in Hrun. cbn [emit] in Hrun.
  unfold bind at 1, lift at 1 in Hrun.
  destruct (get_recommendations api i active_today new_here)
    as [recommendations|e]; [|discriminate].
  cbn [rbind] in *. unfold bind at 1, lift at 1 in Hrun.
  destruct (collect_subjects recommendations) as [[user_ids rating_tokens]|e];
    [|discriminate].
  cbn [rbind fst] in *.
  destruct user_ids as [|u us].
  - cbn in Hrun. inversion Hrun; subst. cbn.
    rewrite !accounting_app, !writes_app. cbn. rewrite !app_nil_r. auto.
  - unfold bind at 1 in Hrun. cbn [emit] in Hrun.
    unfold bind at 1, lift at 1 in Hrun.
    destruct (get_public_users api i (u :: us)) as [profiles|e]; [|discriminate].
    cbn [rbind] in Hids. unfold bind at 1, lift at 1 in Hrun.
    destruct (py_iter profiles) as [items|e]; [|discriminate].
    cbn [rbind] in Hids. unfold bind at 1 in Hrun.
    rewrite (process_profiles_all_present _ _ _ ids) in Hrun by assumption.
    unfold bind at 1, get_store at 1 in Hrun.
    unfold bind at 1 in Hrun. cbn [emit] in Hrun.
    unfold bind at 1 in Hrun.
    cbn [write_output existing_data output_file trace] in Hrun.
    destruct (Z.of_nat i <? iterations - 1)%Z.
    + unfold pause, sleep_time, bind, lift in *. cbn [emit] in Hrun.
      destruct (time_sleep clk i
                  (uniform min_sleep max_sleep (random_random clk i)))
        as [[]|e]; cbn in Hrun; inversion Hrun; subst; cbn;
        rewrite !accounting_app, !writes_app; cbn; rewrite !app_nil_r; auto.
    + cbn in Hrun. inversion Hrun; subst. cbn.
      rewrite !accounting_app, !writes_app. cbn. rewrite !app_nil_r. auto.
Qed.

(** The theorem at a third cycle run on [sample_final] that returns [b]
    and [c] again, with negative bounds of the pause: the store is
    rewritten as it is, and the cycle raises what the pause raises. *)
Lemma known_identities_change_nothing_witness :
  returned_identities sample_api false false 1 = Ok [KStr "b"; KStr "c"]
  /\ existing_data
       (fst (scrape_iteration sample_api sample_clock sample_question_map 3
               (-2) (-1) false false 1 sample_final))
     = existing_data sample_final
  /\ accounting
       (trace (fst (scrape_iteration sample_api sample_clock sample_question_map
                      3 (-2) (-1) false false 1 sample_final)))
     = (accounting (trace sample_final) ++ [(2, 0, 2, 3)])%nat%list
  /\ snd (scrape_iteration sample_api sample_clock sample_question_map 3
            (-2) (-1) false false 1 sample_final)
     = Err ValueError.
Proof.
  split; [reflexivity|].
  destruct (known_identities_change_nothing sample_api sample_clock
              sample_question_map 3 (-2) (-1) false false 1 sample_final
              [KStr "b"; KStr "c"] eq_refl)
    as (Hstore & Hrest).
  - intros id [<-|[<-|[]]]; reflexivity.
  - split; [exact Hstore|].
    change (collected_user_ids sample_api false false 1)
      with (@Ok (list json) [JStr "b"; JStr "c"]) in Hrest.
    destruct Hrest as (Hacc & _ & _ & Hend).
    split; [exact Hacc | exact Hend].
Defined.
